(** * Bovali AI Studio: request orchestration and view controller

    A shallow embedding of [src/services/geminiService.ts] (the prompt and
    request orchestrator) and of the state logic of [src/App.tsx] (the view
    controller), followed by the properties the specification states about
    them.

    Conventions.
    - JavaScript strings are [string]; [null]/[undefined] is [None].
    - A truthiness test on a [string | null] is [truthy]: it fails on
      [null] and on the empty string.
    - An [async] function is a [Promise]: a function of the outside world
      that returns the new world and either the thrown value or the result.
      The outside world holds the log of requests sent to the generation
      API, the chat sessions created and the turns sent through them, the
      object URLs handed out and revoked, and the clock.
    - The generation API and the chat session are oracles: section
      variables that give the reply to a request from the history so far.
    - Characters are bytes; the strings the sources build and take apart
      (data URLs, MIME types, prompts) are ASCII.  The text typed into the
      chat form, which the form trims, is a list of UTF-16 code units.
    - One event of the application is one run of a handler to its end.
    - [console.error] has no effect the program can observe and is left
      out.  The check of [process.env.API_KEY] when the module is loaded
      is a precondition of every operation. *)

From Stdlib Require Import String Ascii List Bool Arith NArith DecimalString
  DecimalNat.
Import ListNotations.
Open Scope string_scope.

(* ================================================================== *)
(** ** JavaScript string primitives used by the sources *)

Module Js.

Definition nl : string := String (ascii_of_nat 10) "".
Definition dq : string := String (ascii_of_nat 34) "".

(** A template literal that spans several source lines, one string per
    line. *)
Definition lines (ls : list string) : string := String.concat nl ls.

Definition truthyString (s : string) : bool :=
  match s with EmptyString => false | _ => true end.

Definition truthy (v : option string) : bool :=
  match v with None => false | Some s => truthyString s end.

(** [s.split(sep)] for a one-character separator. *)
Fixpoint split (sep : ascii) (s : string) : list string :=
  match s with
  | EmptyString => [EmptyString]
  | String c rest =>
      if Ascii.eqb c sep then EmptyString :: split sep rest
      else match split sep rest with
           | seg :: segs => String c seg :: segs
           | [] => [String c EmptyString]
           end
  end.

Definition isUpper (c : ascii) : bool :=
  let n := nat_of_ascii c in ((65 <=? n) && (n <=? 90))%nat.

Definition lowerChar (c : ascii) : ascii :=
  if isUpper c then ascii_of_nat (nat_of_ascii c + 32) else c.

(** [s.toLowerCase()] on ASCII; the sources apply it to the names of the
    surface types. *)
Fixpoint toLowerCase (s : string) : string :=
  match s with
  | EmptyString => EmptyString
  | String c rest => String (lowerChar c) (toLowerCase rest)
  end.

(** [hay.includes(needle)]. *)
Fixpoint includes (needle hay : string) : bool :=
  String.prefix needle hay ||
  match hay with
  | EmptyString => false
  | String _ rest => includes needle rest
  end.

(** Line terminators, which [.] of a regular expression refuses. *)
Definition isLineTerminator (c : ascii) : bool :=
  let n := nat_of_ascii c in ((n =? 10) || (n =? 13))%nat.

(** The lazy [(.*?);] after a colon: the text up to the next semicolon,
    unless a line terminator or the end of the string comes first. *)
Fixpoint lazyUntilSemi (s : string) : option string :=
  match s with
  | EmptyString => None
  | String c rest =>
      if Ascii.eqb c ";" then Some EmptyString
      else if isLineTerminator c then None
      else option_map (String c) (lazyUntilSemi rest)
  end.

(** [s.match(/:(.*?);/)]: the match array (whole match, group 1) at the
    leftmost colon from which the pattern matches, or [null]. *)
Fixpoint matchColonSemi (s : string) : option (list string) :=
  match s with
  | EmptyString => None
  | String c rest =>
      if Ascii.eqb c ":" then
        match lazyUntilSemi rest with
        | Some g => Some [":" ++ g ++ ";"; g]
        | None => matchColonSemi rest
        end
      else matchColonSemi rest
  end.

(** [String(n)] for a natural number. *)
Definition ofNat (n : nat) : string := NilEmpty.string_of_uint (Nat.to_uint n).

End Js.

(* ================================================================== *)
(** ** Data model *)

(** What [throw] and a rejected promise carry.  [TypeErrorObj] is the
    error the runtime itself raises (reading a property of [undefined],
    iterating [undefined]); its message is the engine's. *)
Inductive JsThrown : Type :=
| ErrorObj (message : string)
| TypeErrorObj (message : string)
| NonError (description : string).

Definition instanceofError (e : JsThrown) : bool :=
  match e with
  | ErrorObj _ | TypeErrorObj _ => true
  | NonError _ => false
  end.

Definition errorMessage (e : JsThrown) : string :=
  match e with
  | ErrorObj m | TypeErrorObj m => m
  | NonError _ => ""
  end.

(** A browser [File]: its [type], and the base64 text of its bytes as
    [FileReader.readAsDataURL] encodes them ([None]: the reader fails). *)
Record File : Type := {
  file_type : string;
  file_base64 : option string
}.

Inductive Modality : Type := IMAGE | TEXT.

(** One [inlineData] of a request; [inline_data] is what
    [split(',')[1]] gave, which is [undefined] when there is no comma. *)
Record InlineData : Type := {
  inline_data : option string;
  inline_mimeType : string
}.

Inductive RequestPart : Type :=
| ReqInline (d : InlineData)
| ReqText (t : string).

Record Request : Type := {
  model : string;
  contents : list RequestPart;
  responseModalities : list Modality
}.

(** The response of the API, with the optional fields the sources test. *)
Record Blob : Type := { data : string; mimeType : string }.
Record Part : Type := { inlineData : option Blob; text : option string }.
Record Content : Type := { parts : option (list Part) }.
Record Candidate : Type := { content : option Content }.
Record GenerateContentResponse : Type := { candidates : option (list Candidate) }.

Record ApiReply : Type := {
  elapsed : nat;
  outcome : JsThrown + GenerateContentResponse
}.

(** The chat session handle that [ai.chats.create] returns. *)
Record Chat : Type := {
  chat_id : nat;
  chat_model : string;
  systemInstruction : string
}.

Record ChatReply : Type := {
  chat_elapsed : nat;
  chat_outcome : JsThrown + string      (* [response.text] *)
}.

(** The world outside the program. *)
Record World : Type := {
  clock : nat;                          (* [Date.now()] *)
  sent : list Request;                  (* [ai.models.generateContent] calls *)
  chatsCreated : nat;                   (* [ai.chats.create] calls *)
  chatTurns : list (Chat * string);     (* [chat.sendMessage] calls *)
  nextObjectUrl : nat;                  (* [URL.createObjectURL] calls *)
  revoked : list string                 (* [URL.revokeObjectURL] calls *)
}.

Definition Promise (A : Type) : Type := World -> World * (JsThrown + A).

Definition resolve {A} (a : A) : Promise A := fun w => (w, inr a).
Definition throw {A} (e : JsThrown) : Promise A := fun w => (w, inl e).

Definition await {A B} (p : Promise A) (k : A -> Promise B) : Promise B :=
  fun w =>
    match p w with
    | (w', inr a) => k a w'
    | (w', inl e) => (w', inl e)
    end.

Definition tryCatch {A} (body : Promise A) (handler : JsThrown -> Promise A)
  : Promise A :=
  fun w =>
    match body w with
    | (w', inl e) => handler e w'
    | (w', inr a) => (w', inr a)
    end.

(** A computation that touches nothing outside, run inside an [async]
    function. *)
Definition ofResult {A} (r : JsThrown + A) : Promise A := fun w => (w, r).

Notation "x <- p ;; k" := (await p (fun x => k))
  (at level 61, p at next level, right associativity).

(** [Promise.all] over an array of promises: the results in order, or the
    first rejection. *)
Fixpoint Promise_all {A} (ps : list (Promise A)) : Promise (list A) :=
  match ps with
  | [] => resolve []
  | p :: rest => a <- p ;; l <- Promise_all rest ;; resolve (a :: l)
  end.

(* ================================================================== *)
(** ** The orchestrator, [src/services/geminiService.ts] *)

(** [reader.readAsDataURL(file)] followed by [reader.result]. *)
Definition readAsDataURL (file : File) : option string :=
  match file_base64 file with
  | None => None
  | Some b =>
      let mediaType :=
        if Js.truthyString (file_type file) then file_type file
        else "application/octet-stream" in
      Some ("data:" ++ mediaType ++ ";base64," ++ b)
  end.

Definition fileToBase64 (file : File) : Promise (option string) :=
  ofResult
    match readAsDataURL file with
    | Some result => inr (nth_error (Js.split "," result) 1)
    | None => inl (NonError "ProgressEvent")
    end.

Definition systemInstructionText : string :=
  Js.lines [
    "";
    "    You are a sophisticated and knowledgeable AI assistant for Bovali, a luxury brand specializing in high-end flooring and cladding. ";
    "    Your expertise lies in contemporary architecture and Italian design. Your purpose is to assist clients by answering questions about ";
    "    Bovali's products, explaining the AI design generation process, and offering expert design advice. When the user provides an instruction to edit an image, you fulfill the request and provide a brief confirmation. Maintain a professional, ";
    "    elegant, and helpful tone at all times. If a question is outside the scope of interior design, flooring, cladding, or Bovali, ";
    "    politely state that your expertise is focused on these areas.";
    "    "
  ].

(** [ai.chats.create]: a new handle, numbered by creation. *)
Definition createBovaliChat (w : World) : World * Chat :=
  ({| clock := clock w; sent := sent w;
      chatsCreated := S (chatsCreated w); chatTurns := chatTurns w;
      nextObjectUrl := nextObjectUrl w; revoked := revoked w |},
   {| chat_id := chatsCreated w;
      chat_model := "gemini-2.5-flash";
      systemInstruction := systemInstructionText |}).

(** The data URL both operations build from an image part. *)
Definition dataUrl (b : Blob) : string :=
  "data:" ++ mimeType b ++ ";base64," ++ data b.

Inductive SurfaceType : Type := Flooring | Walls.
Inductive ExtractionType : Type := Pattern | Material.

Definition surfaceTypeString (s : SurfaceType) : string :=
  match s with Flooring => "Flooring" | Walls => "Walls" end.

Definition extractionTypeString (e : ExtractionType) : string :=
  match e with Pattern => "Pattern" | Material => "Material" end.

Record EditResult : Type := {
  edit_imageUrl : option string;
  edit_text : option string
}.

Record SurfaceResult : Type := { imageUrl : option string }.

Definition editFullPrompt (prompt : string) : string :=
  Js.lines [
    "";
    "            As an expert AI image editor, edit the provided image based on the following instruction, ensuring the result is photorealistic and maintains the original image's context.";
    "            Instruction: " ++ Js.dq ++ prompt ++ Js.dq;
    "        "
  ].

Definition editRequest (base64Image : option string) (mime prompt : string)
  : Request :=
  {| model := "gemini-2.5-flash-image-preview";
     contents :=
       [ ReqInline {| inline_data := base64Image; inline_mimeType := mime |};
         ReqText (editFullPrompt prompt) ];
     responseModalities := [IMAGE; TEXT] |}.

(** One turn of the loop of [editImageWithPrompt] over the parts: an image
    part overwrites [imageUrl], a part with truthy text overwrites
    [text]. *)
Definition editLoopBody (acc : option string * option string) (part : Part)
  : option string * option string :=
  match inlineData part with
  | Some b => (Some (dataUrl b), snd acc)
  | None =>
      if Js.truthy (text part) then (fst acc, text part) else acc
  end.

(** The loop of [generateSurfaceDesign], which leaves at the first image
    part. *)
Fixpoint surfaceLoop (ps : list Part) (imageUrl0 : option string)
  : option string :=
  match ps with
  | [] => imageUrl0
  | part :: rest =>
      match inlineData part with
      | Some b => Some (dataUrl b)              (* break *)
      | None => surfaceLoop rest imageUrl0
      end
  end.

Definition editNoImageWithText (t : string) : string :=
  "The AI responded but did not return an image: " ++ Js.dq ++ t ++ Js.dq.

Definition editNoImage : string :=
  "The AI did not return an image for your edit request.".

Definition surfaceNoImage : string :=
  "AI failed to generate a new image. Please try a different combination of images or prompt.".

(** The loop of [editImageWithPrompt] over
    [response.candidates[0].content.parts], which is read without a
    guard. *)
Definition editParts (response : GenerateContentResponse)
  : JsThrown + (option string * option string) :=
  match candidates response with
  | Some (first :: _) =>
      match content first with
      | None =>
          inl (TypeErrorObj
                 "Cannot read properties of undefined (reading 'parts')")
      | Some c =>
          match parts c with
          | None => inl (TypeErrorObj "undefined is not iterable")
          | Some ps => inr (fold_left editLoopBody ps (None, None))
          end
      end
  | Some [] | None => inr (None, None)
  end.

(** The part of [editImageWithPrompt] after the response has arrived. *)
Definition editUnpack (response : GenerateContentResponse)
  : JsThrown + EditResult :=
  match editParts response with
  | inl e => inl e
  | inr (imageUrl1, text1) =>
      if negb (Js.truthy imageUrl1) then
        match text1 with
        | Some t =>
            if Js.truthyString t then inl (ErrorObj (editNoImageWithText t))
            else inl (ErrorObj editNoImage)
        | None => inl (ErrorObj editNoImage)
        end
      else inr {| edit_imageUrl := imageUrl1; edit_text := text1 |}
  end.

(** [response.candidates && response.candidates[0]?.content?.parts]. *)
Definition surfaceParts (response : GenerateContentResponse)
  : option (list Part) :=
  match candidates response with
  | Some (first :: _) =>
      match content first with
      | Some c => parts c
      | None => None
      end
  | Some [] | None => None
  end.

(** The part of [generateSurfaceDesign] after the response has arrived. *)
Definition surfaceUnpack (response : GenerateContentResponse)
  : JsThrown + SurfaceResult :=
  let imageUrl1 :=
    match surfaceParts response with
    | Some ps => surfaceLoop ps None
    | None => None
    end in
  if negb (Js.truthy imageUrl1) then inl (ErrorObj surfaceNoImage)
  else inr {| imageUrl := imageUrl1 |}.

Section Orchestrator.

(** The generation API: the reply to a request, given the requests sent
    before it. *)
Variable generateContent : list Request -> Request -> ApiReply.

Definition ai_models_generateContent (req : Request)
  : Promise GenerateContentResponse :=
  fun w =>
    let reply := generateContent (sent w) req in
    ({| clock := clock w + elapsed reply; sent := sent w ++ [req];
        chatsCreated := chatsCreated w; chatTurns := chatTurns w;
        nextObjectUrl := nextObjectUrl w; revoked := revoked w |},
     outcome reply).

Definition editImageWithPrompt (base64Image : option string)
  (mime prompt : string) : Promise EditResult :=
  tryCatch
    (response <- ai_models_generateContent (editRequest base64Image mime prompt) ;;
     ofResult (editUnpack response))
    (fun error =>
       if instanceofError error then throw error
       else throw (ErrorObj "An unknown error occurred while editing the image.")).

Definition surfaceRequest (prompt : string) (imageParts : list InlineData)
  : Request :=
  {| model := "gemini-2.5-flash-image-preview";
     contents := (map ReqInline imageParts ++ [ReqText prompt])%list;
     responseModalities := [IMAGE] |}.

Definition generateSurfaceDesign (prompt : string) (images : list File)
  : Promise SurfaceResult :=
  tryCatch
    (imageParts <-
       Promise_all
         (map (fun image =>
                 base64 <- fileToBase64 image ;;
                 resolve {| inline_data := base64;
                            inline_mimeType := file_type image |})
              images) ;;
     response <- ai_models_generateContent (surfaceRequest prompt imageParts) ;;
     ofResult (surfaceUnpack response))
    (fun error => throw error).

Definition extractDimensionInstruction (dimensions : option string) : string :=
  match dimensions with
  | Some d =>
      if Js.truthyString d then
        "The user has specified that the subject in the photo has real-world dimensions of " ++ d ++ ". Ensure the output image accurately reflects this scale."
      else ""
  | None => ""
  end.

Definition extractPrompt (extractionType : ExtractionType)
  (dimensions : option string) : string :=
  Js.lines [
    "";
    "        You are an expert AI assistant specializing in creating professional, catalogue-ready images for the luxury design brand Bovali.";
    "        Your task is to process the user-submitted photograph and extract a specific element.";
    "        Analyze the image and correct for any perspective distortion, angled views, uneven lighting, and color inconsistencies.";
    "        The final result must be a clean, seamless, front-facing, high-resolution image of the requested element, suitable for a professional design catalogue.";
    "";
    "        Extraction Type: Extract the " ++ extractionTypeString extractionType ++ ".";
    "        - If 'Pattern', isolate the primary repeating pattern.";
    "        - If 'Material', isolate the material's texture, color, and finish, ignoring distinct patterns unless they are part of the material itself (like wood grain).";
    "        ";
    "        " ++ extractDimensionInstruction dimensions;
    "";
    "        Output only the processed image. Do not add text or other artifacts. The image is provided after this prompt.";
    "    "
  ].

Definition extractAndProcessImage (sourceImage : File)
  (extractionType : ExtractionType) (dimensions : option string)
  : Promise SurfaceResult :=
  generateSurfaceDesign (extractPrompt extractionType dimensions) [sourceImage].

Definition tileDimensionInstruction (tileDimensions : option string) : string :=
  match tileDimensions with
  | Some d =>
      if Js.truthyString d then
        "The " ++ Js.dq ++ "Pattern Image" ++ Js.dq ++ " represents a single tile with the dimensions " ++ d ++ ". Use this information to accurately scale the pattern on the surface."
      else ""
  | None => ""
  end.

Definition patternAndMaterialPrompt (surfaceType : SurfaceType)
  (tileDimensions : option string) : string :=
  let surface := Js.toLowerCase (surfaceTypeString surfaceType) in
  Js.lines [
    "";
    "        You are an AI assistant for Bovali, a luxury interior design brand.";
    "        Your task is to modify the primary " ++ Js.dq ++ "Render Shot" ++ Js.dq ++ " image.";
    "        Identify the " ++ surface ++ " in the " ++ Js.dq ++ "Render Shot" ++ Js.dq ++ ".";
    "        Apply the visual pattern from the " ++ Js.dq ++ "Pattern Image" ++ Js.dq ++ " to the " ++ surface ++ ".";
    "        Then, apply the texture, material properties (like gloss, reflection, texture), and color palette from the " ++ Js.dq ++ "Material Image" ++ Js.dq ++ " to the same " ++ surface ++ ".";
    "        " ++ tileDimensionInstruction tileDimensions;
    "        The final result must be a single, photorealistic image that seamlessly integrates the new pattern and material onto the specified surface in the original render shot, maintaining realistic lighting, shadows, and perspective.";
    "        Do not add any text or other artifacts to the image. Output only the modified image.";
    "        The images are provided after this prompt.";
    "    "
  ].

Definition applyPatternAndMaterial (renderShot pattern material : File)
  (surfaceType : SurfaceType) (tileDimensions : option string)
  : Promise SurfaceResult :=
  generateSurfaceDesign (patternAndMaterialPrompt surfaceType tileDimensions)
    [renderShot; pattern; material].

Definition patternOnlyPrompt (surfaceType : SurfaceType)
  (tileDimensions : option string) : string :=
  let surface := Js.toLowerCase (surfaceTypeString surfaceType) in
  Js.lines [
    "";
    "        You are an AI assistant for Bovali, a luxury interior design brand.";
    "        Your task is to modify the primary " ++ Js.dq ++ "Render Shot" ++ Js.dq ++ " image.";
    "        Identify the " ++ surface ++ " in the " ++ Js.dq ++ "Render Shot" ++ Js.dq ++ ".";
    "        Apply ONLY the visual pattern from the " ++ Js.dq ++ "Pattern Image" ++ Js.dq ++ " to the " ++ surface ++ ".";
    "        " ++ tileDimensionInstruction tileDimensions;
    "        The original material, texture, lighting, and colors of the surface in the " ++ Js.dq ++ "Render Shot" ++ Js.dq ++ " should be preserved as much as possible.";
    "        The final result must be a single, photorealistic image that seamlessly integrates the new pattern onto the specified surface in the original render shot, maintaining realistic lighting, shadows, and perspective.";
    "        Do not add any text or other artifacts to the image. Output only the modified image.";
    "        The images are provided after this prompt.";
    "    "
  ].

Definition applyPatternOnly (renderShot pattern : File)
  (surfaceType : SurfaceType) (tileDimensions : option string)
  : Promise SurfaceResult :=
  generateSurfaceDesign (patternOnlyPrompt surfaceType tileDimensions)
    [renderShot; pattern].

Definition materialOnlyPrompt (surfaceType : SurfaceType) : string :=
  let surface := Js.toLowerCase (surfaceTypeString surfaceType) in
  Js.lines [
    "";
    "        You are an AI assistant for Bovali, a luxury interior design brand.";
    "        Your task is to modify the primary " ++ Js.dq ++ "Render Shot" ++ Js.dq ++ " image.";
    "        Identify the " ++ surface ++ " in the " ++ Js.dq ++ "Render Shot" ++ Js.dq ++ ".";
    "        Apply ONLY the texture, material properties (like gloss, reflection, texture), and color palette from the " ++ Js.dq ++ "Material Image" ++ Js.dq ++ " to the " ++ surface ++ ".";
    "        If the original surface had a pattern, it should be preserved if possible, but rendered with the new material properties.";
    "        The final result must be a single, photorealistic image that seamlessly integrates the new material onto the specified surface in the original render shot, maintaining realistic lighting, shadows, and perspective.";
    "        Do not add any text or other artifacts to the image. Output only the modified image.";
    "        The images are provided after this prompt.";
    "    "
  ].

Definition applyMaterialOnly (renderShot material : File)
  (surfaceType : SurfaceType) : Promise SurfaceResult :=
  generateSurfaceDesign (materialOnlyPrompt surfaceType) [renderShot; material].

End Orchestrator.

(* ================================================================== *)
(** ** The view controller, [src/App.tsx] *)

Inductive Sender : Type := user | bot.

Record Message : Type := {
  msg_id : nat;
  msg_text : string;
  sender : Sender
}.

Inductive GenerationMode : Type := PatternAndMaterial | PatternOnly | MaterialOnly.
Inductive TileUnit : Type := cm | inches.
Inductive ActiveTab : Type := generator | extractor.

Definition tileUnitString (u : TileUnit) : string :=
  match u with cm => "cm" | inches => "inches" end.

Definition isGenerator (t : ActiveTab) : bool :=
  match t with generator => true | extractor => false end.

Definition ActiveTab_eqb (a b : ActiveTab) : bool :=
  match a, b with
  | generator, generator | extractor, extractor => true
  | _, _ => false
  end.

Definition GenerationMode_eqb (a b : GenerationMode) : bool :=
  match a, b with
  | PatternAndMaterial, PatternAndMaterial
  | PatternOnly, PatternOnly
  | MaterialOnly, MaterialOnly => true
  | _, _ => false
  end.

(** Modelled from the spec: [ImageState] is declared in [./types], which
    is not among the sources.  The specification gives it a file reference
    and a locally created preview locator, both optional; [App.tsx] builds
    it as [{ file, previewUrl }] and empties it as
    [{ file: null, previewUrl: null }]. *)
Record ImageState : Type := {
  file : option File;
  previewUrl : option string
}.

Definition emptyImage : ImageState := {| file := None; previewUrl := None |}.

(** The [useState] cells and the [chatRef] of [App]. *)
Record AppState : Type := {
  activeTab : ActiveTab;
  surfaceType : SurfaceType;
  generationMode : GenerationMode;
  renderShot : ImageState;
  pattern : ImageState;
  material : ImageState;
  outputImage : option string;
  loading : bool;
  error : option string;
  tileWidth : string;
  tileHeight : string;
  tileUnit : TileUnit;
  sourceImage : ImageState;
  extractionType : ExtractionType;
  processedImage : option string;
  isProcessing : bool;
  processingError : option string;
  sourceWidth : string;
  sourceHeight : string;
  sourceUnit : TileUnit;
  isChatOpen : bool;
  isBotTyping : bool;
  messages : list Message;
  chatRef : option Chat
}.

Definition setActiveTab (v : ActiveTab) (s : AppState) : AppState :=
  {| activeTab := v; surfaceType := surfaceType s;
     generationMode := generationMode s; renderShot := renderShot s;
     pattern := pattern s; material := material s;
     outputImage := outputImage s; loading := loading s; error := error s;
     tileWidth := tileWidth s; tileHeight := tileHeight s;
     tileUnit := tileUnit s; sourceImage := sourceImage s;
     extractionType := extractionType s; processedImage := processedImage s;
     isProcessing := isProcessing s; processingError := processingError s;
     sourceWidth := sourceWidth s; sourceHeight := sourceHeight s;
     sourceUnit := sourceUnit s; isChatOpen := isChatOpen s;
     isBotTyping := isBotTyping s; messages := messages s;
     chatRef := chatRef s |}.

Definition setSurfaceType (v : SurfaceType) (s : AppState) : AppState :=
  {| activeTab := activeTab s; surfaceType := v;
     generationMode := generationMode s; renderShot := renderShot s;
     pattern := pattern s; material := material s;
     outputImage := outputImage s; loading := loading s; error := error s;
     tileWidth := tileWidth s; tileHeight := tileHeight s;
     tileUnit := tileUnit s; sourceImage := sourceImage s;
     extractionType := extractionType s; processedImage := processedImage s;
     isProcessing := isProcessing s; processingError := processingError s;
     sourceWidth := sourceWidth s; sourceHeight := sourceHeight s;
     sourceUnit := sourceUnit s; isChatOpen := isChatOpen s;
     isBotTyping := isBotTyping s; messages := messages s;
     chatRef := chatRef s |}.

Definition setGenerationMode (v : GenerationMode) (s : AppState) : AppState :=
  {| activeTab := activeTab s; surfaceType := surfaceType s;
     generationMode := v; renderShot := renderShot s; pattern := pattern s;
     material := material s; outputImage := outputImage s;
     loading := loading s; error := error s; tileWidth := tileWidth s;
     tileHeight := tileHeight s; tileUnit := tileUnit s;
     sourceImage := sourceImage s; extractionType := extractionType s;
     processedImage := processedImage s; isProcessing := isProcessing s;
     processingError := processingError s; sourceWidth := sourceWidth s;
     sourceHeight := sourceHeight s; sourceUnit := sourceUnit s;
     isChatOpen := isChatOpen s; isBotTyping := isBotTyping s;
     messages := messages s; chatRef := chatRef s |}.

Definition setRenderShot (v : ImageState) (s : AppState) : AppState :=
  {| activeTab := activeTab s; surfaceType := surfaceType s;
     generationMode := generationMode s; renderShot := v;
     pattern := pattern s; material := material s;
     outputImage := outputImage s; loading := loading s; error := error s;
     tileWidth := tileWidth s; tileHeight := tileHeight s;
     tileUnit := tileUnit s; sourceImage := sourceImage s;
     extractionType := extractionType s; processedImage := processedImage s;
     isProcessing := isProcessing s; processingError := processingError s;
     sourceWidth := sourceWidth s; sourceHeight := sourceHeight s;
     sourceUnit := sourceUnit s; isChatOpen := isChatOpen s;
     isBotTyping := isBotTyping s; messages := messages s;
     chatRef := chatRef s |}.

Definition setPattern (v : ImageState) (s : AppState) : AppState :=
  {| activeTab := activeTab s; surfaceType := surfaceType s;
     generationMode := generationMode s; renderShot := renderShot s;
     pattern := v; material := material s; outputImage := outputImage s;
     loading := loading s; error := error s; tileWidth := tileWidth s;
     tileHeight := tileHeight s; tileUnit := tileUnit s;
     sourceImage := sourceImage s; extractionType := extractionType s;
     processedImage := processedImage s; isProcessing := isProcessing s;
     processingError := processingError s; sourceWidth := sourceWidth s;
     sourceHeight := sourceHeight s; sourceUnit := sourceUnit s;
     isChatOpen := isChatOpen s; isBotTyping := isBotTyping s;
     messages := messages s; chatRef := chatRef s |}.

Definition setMaterial (v : ImageState) (s : AppState) : AppState :=
  {| activeTab := activeTab s; surfaceType := surfaceType s;
     generationMode := generationMode s; renderShot := renderShot s;
     pattern := pattern s; material := v; outputImage := outputImage s;
     loading := loading s; error := error s; tileWidth := tileWidth s;
     tileHeight := tileHeight s; tileUnit := tileUnit s;
     sourceImage := sourceImage s; extractionType := extractionType s;
     processedImage := processedImage s; isProcessing := isProcessing s;
     processingError := processingError s; sourceWidth := sourceWidth s;
     sourceHeight := sourceHeight s; sourceUnit := sourceUnit s;
     isChatOpen := isChatOpen s; isBotTyping := isBotTyping s;
     messages := messages s; chatRef := chatRef s |}.

Definition setOutputImage (v : option string) (s : AppState) : AppState :=
  {| activeTab := activeTab s; surfaceType := surfaceType s;
     generationMode := generationMode s; renderShot := renderShot s;
     pattern := pattern s; material := material s; outputImage := v;
     loading := loading s; error := error s; tileWidth := tileWidth s;
     tileHeight := tileHeight s; tileUnit := tileUnit s;
     sourceImage := sourceImage s; extractionType := extractionType s;
     processedImage := processedImage s; isProcessing := isProcessing s;
     processingError := processingError s; sourceWidth := sourceWidth s;
     sourceHeight := sourceHeight s; sourceUnit := sourceUnit s;
     isChatOpen := isChatOpen s; isBotTyping := isBotTyping s;
     messages := messages s; chatRef := chatRef s |}.

Definition setLoading (v : bool) (s : AppState) : AppState :=
  {| activeTab := activeTab s; surfaceType := surfaceType s;
     generationMode := generationMode s; renderShot := renderShot s;
     pattern := pattern s; material := material s;
     outputImage := outputImage s; loading := v; error := error s;
     tileWidth := tileWidth s; tileHeight := tileHeight s;
     tileUnit := tileUnit s; sourceImage := sourceImage s;
     extractionType := extractionType s; processedImage := processedImage s;
     isProcessing := isProcessing s; processingError := processingError s;
     sourceWidth := sourceWidth s; sourceHeight := sourceHeight s;
     sourceUnit := sourceUnit s; isChatOpen := isChatOpen s;
     isBotTyping := isBotTyping s; messages := messages s;
     chatRef := chatRef s |}.

Definition setError (v : option string) (s : AppState) : AppState :=
  {| activeTab := activeTab s; surfaceType := surfaceType s;
     generationMode := generationMode s; renderShot := renderShot s;
     pattern := pattern s; material := material s;
     outputImage := outputImage s; loading := loading s; error := v;
     tileWidth := tileWidth s; tileHeight := tileHeight s;
     tileUnit := tileUnit s; sourceImage := sourceImage s;
     extractionType := extractionType s; processedImage := processedImage s;
     isProcessing := isProcessing s; processingError := processingError s;
     sourceWidth := sourceWidth s; sourceHeight := sourceHeight s;
     sourceUnit := sourceUnit s; isChatOpen := isChatOpen s;
     isBotTyping := isBotTyping s; messages := messages s;
     chatRef := chatRef s |}.

Definition setTileWidth (v : string) (s : AppState) : AppState :=
  {| activeTab := activeTab s; surfaceType := surfaceType s;
     generationMode := generationMode s; renderShot := renderShot s;
     pattern := pattern s; material := material s;
     outputImage := outputImage s; loading := loading s; error := error s;
     tileWidth := v; tileHeight := tileHeight s; tileUnit := tileUnit s;
     sourceImage := sourceImage s; extractionType := extractionType s;
     processedImage := processedImage s; isProcessing := isProcessing s;
     processingError := processingError s; sourceWidth := sourceWidth s;
     sourceHeight := sourceHeight s; sourceUnit := sourceUnit s;
     isChatOpen := isChatOpen s; isBotTyping := isBotTyping s;
     messages := messages s; chatRef := chatRef s |}.

Definition setTileHeight (v : string) (s : AppState) : AppState :=
  {| activeTab := activeTab s; surfaceType := surfaceType s;
     generationMode := generationMode s; renderShot := renderShot s;
     pattern := pattern s; material := material s;
     outputImage := outputImage s; loading := loading s; error := error s;
     tileWidth := tileWidth s; tileHeight := v; tileUnit := tileUnit s;
     sourceImage := sourceImage s; extractionType := extractionType s;
     processedImage := processedImage s; isProcessing := isProcessing s;
     processingError := processingError s; sourceWidth := sourceWidth s;
     sourceHeight := sourceHeight s; sourceUnit := sourceUnit s;
     isChatOpen := isChatOpen s; isBotTyping := isBotTyping s;
     messages := messages s; chatRef := chatRef s |}.

Definition setTileUnit (v : TileUnit) (s : AppState) : AppState :=
  {| activeTab := activeTab s; surfaceType := surfaceType s;
     generationMode := generationMode s; renderShot := renderShot s;
     pattern := pattern s; material := material s;
     outputImage := outputImage s; loading := loading s; error := error s;
     tileWidth := tileWidth s; tileHeight := tileHeight s; tileUnit := v;
     sourceImage := sourceImage s; extractionType := extractionType s;
     processedImage := processedImage s; isProcessing := isProcessing s;
     processingError := processingError s; sourceWidth := sourceWidth s;
     sourceHeight := sourceHeight s; sourceUnit := sourceUnit s;
     isChatOpen := isChatOpen s; isBotTyping := isBotTyping s;
     messages := messages s; chatRef := chatRef s |}.

Definition setSourceImage (v : ImageState) (s : AppState) : AppState :=
  {| activeTab := activeTab s; surfaceType := surfaceType s;
     generationMode := generationMode s; renderShot := renderShot s;
     pattern := pattern s; material := material s;
     outputImage := outputImage s; loading := loading s; error := error s;
     tileWidth := tileWidth s; tileHeight := tileHeight s;
     tileUnit := tileUnit s; sourceImage := v;
     extractionType := extractionType s; processedImage := processedImage s;
     isProcessing := isProcessing s; processingError := processingError s;
     sourceWidth := sourceWidth s; sourceHeight := sourceHeight s;
     sourceUnit := sourceUnit s; isChatOpen := isChatOpen s;
     isBotTyping := isBotTyping s; messages := messages s;
     chatRef := chatRef s |}.

Definition setExtractionType (v : ExtractionType) (s : AppState) : AppState :=
  {| activeTab := activeTab s; surfaceType := surfaceType s;
     generationMode := generationMode s; renderShot := renderShot s;
     pattern := pattern s; material := material s;
     outputImage := outputImage s; loading := loading s; error := error s;
     tileWidth := tileWidth s; tileHeight := tileHeight s;
     tileUnit := tileUnit s; sourceImage := sourceImage s;
     extractionType := v; processedImage := processedImage s;
     isProcessing := isProcessing s; processingError := processingError s;
     sourceWidth := sourceWidth s; sourceHeight := sourceHeight s;
     sourceUnit := sourceUnit s; isChatOpen := isChatOpen s;
     isBotTyping := isBotTyping s; messages := messages s;
     chatRef := chatRef s |}.

Definition setProcessedImage (v : option string) (s : AppState) : AppState :=
  {| activeTab := activeTab s; surfaceType := surfaceType s;
     generationMode := generationMode s; renderShot := renderShot s;
     pattern := pattern s; material := material s;
     outputImage := outputImage s; loading := loading s; error := error s;
     tileWidth := tileWidth s; tileHeight := tileHeight s;
     tileUnit := tileUnit s; sourceImage := sourceImage s;
     extractionType := extractionType s; processedImage := v;
     isProcessing := isProcessing s; processingError := processingError s;
     sourceWidth := sourceWidth s; sourceHeight := sourceHeight s;
     sourceUnit := sourceUnit s; isChatOpen := isChatOpen s;
     isBotTyping := isBotTyping s; messages := messages s;
     chatRef := chatRef s |}.

Definition setIsProcessing (v : bool) (s : AppState) : AppState :=
  {| activeTab := activeTab s; surfaceType := surfaceType s;
     generationMode := generationMode s; renderShot := renderShot s;
     pattern := pattern s; material := material s;
     outputImage := outputImage s; loading := loading s; error := error s;
     tileWidth := tileWidth s; tileHeight := tileHeight s;
     tileUnit := tileUnit s; sourceImage := sourceImage s;
     extractionType := extractionType s; processedImage := processedImage s;
     isProcessing := v; processingError := processingError s;
     sourceWidth := sourceWidth s; sourceHeight := sourceHeight s;
     sourceUnit := sourceUnit s; isChatOpen := isChatOpen s;
     isBotTyping := isBotTyping s; messages := messages s;
     chatRef := chatRef s |}.

Definition setProcessingError (v : option string) (s : AppState) : AppState :=
  {| activeTab := activeTab s; surfaceType := surfaceType s;
     generationMode := generationMode s; renderShot := renderShot s;
     pattern := pattern s; material := material s;
     outputImage := outputImage s; loading := loading s; error := error s;
     tileWidth := tileWidth s; tileHeight := tileHeight s;
     tileUnit := tileUnit s; sourceImage := sourceImage s;
     extractionType := extractionType s; processedImage := processedImage s;
     isProcessing := isProcessing s; processingError := v;
     sourceWidth := sourceWidth s; sourceHeight := sourceHeight s;
     sourceUnit := sourceUnit s; isChatOpen := isChatOpen s;
     isBotTyping := isBotTyping s; messages := messages s;
     chatRef := chatRef s |}.

Definition setSourceWidth (v : string) (s : AppState) : AppState :=
  {| activeTab := activeTab s; surfaceType := surfaceType s;
     generationMode := generationMode s; renderShot := renderShot s;
     pattern := pattern s; material := material s;
     outputImage := outputImage s; loading := loading s; error := error s;
     tileWidth := tileWidth s; tileHeight := tileHeight s;
     tileUnit := tileUnit s; sourceImage := sourceImage s;
     extractionType := extractionType s; processedImage := processedImage s;
     isProcessing := isProcessing s; processingError := processingError s;
     sourceWidth := v; sourceHeight := sourceHeight s;
     sourceUnit := sourceUnit s; isChatOpen := isChatOpen s;
     isBotTyping := isBotTyping s; messages := messages s;
     chatRef := chatRef s |}.

Definition setSourceHeight (v : string) (s : AppState) : AppState :=
  {| activeTab := activeTab s; surfaceType := surfaceType s;
     generationMode := generationMode s; renderShot := renderShot s;
     pattern := pattern s; material := material s;
     outputImage := outputImage s; loading := loading s; error := error s;
     tileWidth := tileWidth s; tileHeight := tileHeight s;
     tileUnit := tileUnit s; sourceImage := sourceImage s;
     extractionType := extractionType s; processedImage := processedImage s;
     isProcessing := isProcessing s; processingError := processingError s;
     sourceWidth := sourceWidth s; sourceHeight := v;
     sourceUnit := sourceUnit s; isChatOpen := isChatOpen s;
     isBotTyping := isBotTyping s; messages := messages s;
     chatRef := chatRef s |}.

Definition setSourceUnit (v : TileUnit) (s : AppState) : AppState :=
  {| activeTab := activeTab s; surfaceType := surfaceType s;
     generationMode := generationMode s; renderShot := renderShot s;
     pattern := pattern s; material := material s;
     outputImage := outputImage s; loading := loading s; error := error s;
     tileWidth := tileWidth s; tileHeight := tileHeight s;
     tileUnit := tileUnit s; sourceImage := sourceImage s;
     extractionType := extractionType s; processedImage := processedImage s;
     isProcessing := isProcessing s; processingError := processingError s;
     sourceWidth := sourceWidth s; sourceHeight := sourceHeight s;
     sourceUnit := v; isChatOpen := isChatOpen s;
     isBotTyping := isBotTyping s; messages := messages s;
     chatRef := chatRef s |}.

Definition setIsChatOpen (v : bool) (s : AppState) : AppState :=
  {| activeTab := activeTab s; surfaceType := surfaceType s;
     generationMode := generationMode s; renderShot := renderShot s;
     pattern := pattern s; material := material s;
     outputImage := outputImage s; loading := loading s; error := error s;
     tileWidth := tileWidth s; tileHeight := tileHeight s;
     tileUnit := tileUnit s; sourceImage := sourceImage s;
     extractionType := extractionType s; processedImage := processedImage s;
     isProcessing := isProcessing s; processingError := processingError s;
     sourceWidth := sourceWidth s; sourceHeight := sourceHeight s;
     sourceUnit := sourceUnit s; isChatOpen := v;
     isBotTyping := isBotTyping s; messages := messages s;
     chatRef := chatRef s |}.

Definition setIsBotTyping (v : bool) (s : AppState) : AppState :=
  {| activeTab := activeTab s; surfaceType := surfaceType s;
     generationMode := generationMode s; renderShot := renderShot s;
     pattern := pattern s; material := material s;
     outputImage := outputImage s; loading := loading s; error := error s;
     tileWidth := tileWidth s; tileHeight := tileHeight s;
     tileUnit := tileUnit s; sourceImage := sourceImage s;
     extractionType := extractionType s; processedImage := processedImage s;
     isProcessing := isProcessing s; processingError := processingError s;
     sourceWidth := sourceWidth s; sourceHeight := sourceHeight s;
     sourceUnit := sourceUnit s; isChatOpen := isChatOpen s; isBotTyping := v;
     messages := messages s; chatRef := chatRef s |}.

Definition setMessages (v : list Message) (s : AppState) : AppState :=
  {| activeTab := activeTab s; surfaceType := surfaceType s;
     generationMode := generationMode s; renderShot := renderShot s;
     pattern := pattern s; material := material s;
     outputImage := outputImage s; loading := loading s; error := error s;
     tileWidth := tileWidth s; tileHeight := tileHeight s;
     tileUnit := tileUnit s; sourceImage := sourceImage s;
     extractionType := extractionType s; processedImage := processedImage s;
     isProcessing := isProcessing s; processingError := processingError s;
     sourceWidth := sourceWidth s; sourceHeight := sourceHeight s;
     sourceUnit := sourceUnit s; isChatOpen := isChatOpen s;
     isBotTyping := isBotTyping s; messages := v; chatRef := chatRef s |}.

Definition set_chatRef (v : option Chat) (s : AppState) : AppState :=
  {| activeTab := activeTab s; surfaceType := surfaceType s;
     generationMode := generationMode s; renderShot := renderShot s;
     pattern := pattern s; material := material s;
     outputImage := outputImage s; loading := loading s; error := error s;
     tileWidth := tileWidth s; tileHeight := tileHeight s;
     tileUnit := tileUnit s; sourceImage := sourceImage s;
     extractionType := extractionType s; processedImage := processedImage s;
     isProcessing := isProcessing s; processingError := processingError s;
     sourceWidth := sourceWidth s; sourceHeight := sourceHeight s;
     sourceUnit := sourceUnit s; isChatOpen := isChatOpen s;
     isBotTyping := isBotTyping s; messages := messages s; chatRef := v |}.

Definition initialState : AppState :=
  {| activeTab := generator; surfaceType := Flooring;
     generationMode := PatternAndMaterial; renderShot := emptyImage;
     pattern := emptyImage; material := emptyImage; outputImage := None;
     loading := false; error := None; tileWidth := ""; tileHeight := "";
     tileUnit := cm; sourceImage := emptyImage; extractionType := Pattern;
     processedImage := None; isProcessing := false; processingError := None;
     sourceWidth := ""; sourceHeight := ""; sourceUnit := cm;
     isChatOpen := false; isBotTyping := false;
     messages :=
       [ {| msg_id := 1;
            msg_text := "Hello! How can I assist you with your Bovali design today?";
            sender := bot |} ];
     chatRef := None |}.

Definition initialWorld (now : nat) : World :=
  {| clock := now; sent := []; chatsCreated := 0; chatTurns := [];
     nextObjectUrl := 0; revoked := [] |}.

(** The four upload slots, that is the [setter] which [handleImageSelect]
    and [handleImageRemove] are given. *)
Inductive ImageSlot : Type :=
| RenderShotSlot | PatternSlot | MaterialSlot | SourceImageSlot.

Definition getImage (slot : ImageSlot) (s : AppState) : ImageState :=
  match slot with
  | RenderShotSlot => renderShot s
  | PatternSlot => pattern s
  | MaterialSlot => material s
  | SourceImageSlot => sourceImage s
  end.

Definition setImage (slot : ImageSlot) (v : ImageState) (s : AppState)
  : AppState :=
  match slot with
  | RenderShotSlot => setRenderShot v s
  | PatternSlot => setPattern v s
  | MaterialSlot => setMaterial v s
  | SourceImageSlot => setSourceImage v s
  end.

Definition appendMessage (m : Message) (s : AppState) : AppState :=
  setMessages (messages s ++ [m])%list s.

(** [URL.revokeObjectURL] and [URL.createObjectURL]. *)
Definition URL_revokeObjectURL (url : string) (w : World) : World :=
  {| clock := clock w; sent := sent w; chatsCreated := chatsCreated w;
     chatTurns := chatTurns w; nextObjectUrl := nextObjectUrl w;
     revoked := (revoked w ++ [url])%list |}.

Definition URL_createObjectURL (f : File) (w : World) : World * string :=
  ({| clock := clock w; sent := sent w; chatsCreated := chatsCreated w;
      chatTurns := chatTurns w; nextObjectUrl := S (nextObjectUrl w);
      revoked := revoked w |},
   "blob:" ++ Js.ofNat (nextObjectUrl w)).

(** The effect that creates the chat session. *)
Definition chatInitEffect (s : AppState) (w : World) : AppState * World :=
  match chatRef s with
  | Some _ => (s, w)
  | None =>
      let '(w', chat) := createBovaliChat w in
      (set_chatRef (Some chat) s, w')
  end.

(** The effect on [activeTab]. *)
Definition activeTabEffect (s : AppState) : AppState :=
  match activeTab s with
  | generator =>
      setSourceHeight ""
        (setSourceWidth ""
          (setProcessingError None
            (setProcessedImage None
              (setSourceImage emptyImage s))))
  | extractor =>
      setTileHeight ""
        (setTileWidth ""
          (setError None
            (setOutputImage None
              (setMaterial emptyImage
                (setPattern emptyImage
                  (setRenderShot emptyImage s))))))
  end.

(** The effect on [generationMode]. *)
Definition generationModeEffect (s : AppState) : AppState :=
  setOutputImage None
    (setError None
      (setTileHeight ""
        (setTileWidth ""
          (setMaterial emptyImage
            (setPattern emptyImage
              (setRenderShot emptyImage s)))))).

Record ParsedDataUrl : Type := {
  parsed_mimeType : string;
  base64 : option string
}.

Definition parseDataUrl (url : string) : JsThrown + ParsedDataUrl :=
  let pieces := Js.split "," url in
  match Js.matchColonSemi (nth 0 pieces "") with
  | None => inl (ErrorObj "Invalid data URL format")
  | Some mimePart =>
      if (length mimePart <? 2)%nat then
        inl (ErrorObj "Invalid data URL format")
      else
        inr {| parsed_mimeType := nth 1 mimePart "";
               base64 := nth_error pieces 1 |}
  end.

Definition handleImageSelect (f : File) (slot : ImageSlot)
  (s : AppState) (w : World) : AppState * World :=
  let prevState := getImage slot s in
  let w1 :=
    match previewUrl prevState with
    | Some u => if Js.truthyString u then URL_revokeObjectURL u w else w
    | None => w
    end in
  let '(w2, url) := URL_createObjectURL f w1 in
  let s1 := setImage slot {| file := Some f; previewUrl := Some url |} s in
  (setProcessingError None
     (setProcessedImage None (setError None (setOutputImage None s1))),
   w2).

Definition handleImageRemove (slot : ImageSlot)
  (s : AppState) (w : World) : AppState * World :=
  let prevState := getImage slot s in
  let w1 :=
    match previewUrl prevState with
    | Some u => if Js.truthyString u then URL_revokeObjectURL u w else w
    | None => w
    end in
  let s1 := setImage slot emptyImage s in
  (setProcessingError None
     (setProcessedImage None (setError None (setOutputImage None s1))),
   w1).

Definition dimensionsString (width height : string) (unit : TileUnit)
  : option string :=
  if Js.truthyString width && Js.truthyString height then
    Some (width ++ " x " ++ height ++ " " ++ tileUnitString unit)
  else None.

Definition getIsGeneratorButtonDisabled (s : AppState) : bool :=
  if loading s then true
  else
    match generationMode s with
    | PatternAndMaterial =>
        match file (renderShot s), file (pattern s), file (material s) with
        | Some _, Some _, Some _ => false
        | _, _, _ => true
        end
    | PatternOnly =>
        match file (renderShot s), file (pattern s) with
        | Some _, Some _ => false
        | _, _ => true
        end
    | MaterialOnly =>
        match file (renderShot s), file (material s) with
        | Some _, Some _ => false
        | _, _ => true
        end
    end.

Definition getIsExtractorButtonDisabled (s : AppState) : bool :=
  isProcessing s || match file (sourceImage s) with Some _ => false | None => true end.

Section ViewController.

Variable generateContent : list Request -> Request -> ApiReply.

(** The chat session: the reply to a turn, given the turns sent before. *)
Variable chat_sendMessage : list (Chat * string) -> Chat -> string -> ChatReply.

Definition Chat_sendMessage (chat : Chat) (message : string)
  : Promise string :=
  fun w =>
    let reply := chat_sendMessage (chatTurns w) chat message in
    ({| clock := clock w + chat_elapsed reply; sent := sent w;
        chatsCreated := chatsCreated w;
        chatTurns := (chatTurns w ++ [(chat, message)])%list;
        nextObjectUrl := nextObjectUrl w; revoked := revoked w |},
     chat_outcome reply).

(** The [try] block of the edit branch of [handleSendMessage]. *)
Definition chatEditAttempt (url message : string) : Promise EditResult :=
  parsed <- ofResult (parseDataUrl url) ;;
  result <- editImageWithPrompt generateContent
              (base64 parsed) (parsed_mimeType parsed) message ;;
  if Js.truthy (edit_imageUrl result) then resolve result
  else throw (ErrorObj "The AI did not return a new image for your edit request.").

Definition handleSendMessage (message : string)
  (s : AppState) (w : World) : AppState * World :=
  let newUserMessage :=
    {| msg_id := clock w; msg_text := message; sender := user |} in
  let s1 := setError None (setIsBotTyping true (appendMessage newUserMessage s)) in
  if Js.truthy (outputImage s) && isGenerator (activeTab s) then
    let url := match outputImage s with Some u => u | None => "" end in
    match chatEditAttempt url message w with
    | (w1, inr result) =>
        let botText :=
          if Js.truthy (edit_text result)
          then match edit_text result with Some t => t | None => "" end
          else "Of course. Here is the updated design." in
        let botMessage :=
          {| msg_id := clock w1 + 1; msg_text := botText; sender := bot |} in
        (setIsBotTyping false
           (appendMessage botMessage
              (setOutputImage (edit_imageUrl result) s1)),
         w1)
    | (w1, inl e) =>
        let errorMessageText :=
          if instanceofError e then errorMessage e
          else "Sorry, I couldn't edit the image. Please try a different instruction." in
        let errorMessage :=
          {| msg_id := clock w1 + 1; msg_text := errorMessageText;
             sender := bot |} in
        (setIsBotTyping false (appendMessage errorMessage s1), w1)
    end
  else
    match chatRef s with
    | Some chat =>
        match Chat_sendMessage chat message w with
        | (w1, inr botMessageText) =>
            let newBotMessage :=
              {| msg_id := clock w1 + 1; msg_text := botMessageText;
                 sender := bot |} in
            (setIsBotTyping false (appendMessage newBotMessage s1), w1)
        | (w1, inl _) =>
            let errorMessage :=
              {| msg_id := clock w1 + 1;
                 msg_text := "I'm sorry, I encountered an error. Please try again.";
                 sender := bot |} in
            (setIsBotTyping false (appendMessage errorMessage s1), w1)
        end
    | None => (s1, w)
    end.

(** The [switch] of [handleGeneratorSubmit]: the validation of the slots
    and the call of the mode.  Its [default] case cannot be reached, as
    [GenerationMode] has the three values only. *)
Definition generatorCall (s : AppState) : Promise SurfaceResult :=
  let tileDimensions :=
    dimensionsString (tileWidth s) (tileHeight s) (tileUnit s) in
  match generationMode s with
  | PatternAndMaterial =>
      match file (renderShot s), file (pattern s), file (material s) with
      | Some r, Some p, Some m =>
          applyPatternAndMaterial generateContent r p m (surfaceType s)
            tileDimensions
      | _, _, _ =>
          throw (ErrorObj "Please upload all three images for this mode.")
      end
  | PatternOnly =>
      match file (renderShot s), file (pattern s) with
      | Some r, Some p =>
          applyPatternOnly generateContent r p (surfaceType s) tileDimensions
      | _, _ =>
          throw (ErrorObj
            "Please upload a Render Shot and a Pattern Image for this mode.")
      end
  | MaterialOnly =>
      match file (renderShot s), file (material s) with
      | Some r, Some m =>
          applyMaterialOnly generateContent r m (surfaceType s)
      | _, _ =>
          throw (ErrorObj
            "Please upload a Render Shot and a Material Image for this mode.")
      end
  end.

Definition handleGeneratorSubmit (s : AppState) (w : World)
  : AppState * World :=
  let s1 := setOutputImage None (setError None (setLoading true s)) in
  match generatorCall s w with
  | (w1, inr result) =>
      let s2 :=
        if Js.truthy (imageUrl result) then setOutputImage (imageUrl result) s1
        else setError
               (Some "Failed to generate image. The API did not return an image.")
               s1 in
      (setLoading false s2, w1)
  | (w1, inl err) =>
      let s2 :=
        if instanceofError err then setError (Some (errorMessage err)) s1
        else setError (Some "An unknown error occurred.") s1 in
      (setLoading false s2, w1)
  end.

Definition handleProcessImage (s : AppState) (w : World)
  : AppState * World :=
  match file (sourceImage s) with
  | None =>
      (setProcessingError (Some "Please upload an image to process.") s, w)
  | Some src =>
      let s1 :=
        setProcessedImage None (setProcessingError None (setIsProcessing true s)) in
      let dimensions :=
        dimensionsString (sourceWidth s) (sourceHeight s) (sourceUnit s) in
      match extractAndProcessImage generateContent src (extractionType s)
              dimensions w with
      | (w1, inr result) =>
          let s2 :=
            if Js.truthy (imageUrl result)
            then setProcessedImage (imageUrl result) s1
            else setProcessingError
                   (Some "Failed to process image. The AI did not return an image.")
                   s1 in
          (setIsProcessing false s2, w1)
      | (w1, inl err) =>
          let s2 :=
            if instanceofError err
            then setProcessingError (Some (errorMessage err)) s1
            else setProcessingError
                   (Some "An unknown error occurred during processing.") s1 in
          (setIsProcessing false s2, w1)
      end
  end.

(** *** The application as a transition system

    One event is one run of a handler to its end.  A [set...] with the
    value already held re-renders nothing and runs no effect. *)

Inductive Event : Type :=
| RunChatInitEffect                       (* the effect is run once more *)
| ClickTab (t : ActiveTab)
| ClickSurface (t : SurfaceType)
| ClickMode (m : GenerationMode)
| ChangeTileWidth (v : string)
| ChangeTileHeight (v : string)
| ChangeTileUnit (u : TileUnit)
| ClickExtractionType (e : ExtractionType)
| ChangeSourceWidth (v : string)
| ChangeSourceHeight (v : string)
| ChangeSourceUnit (u : TileUnit)
| SelectImage (slot : ImageSlot) (f : File)
| RemoveImage (slot : ImageSlot)
| ClickGenerate
| ClickProcess
| OpenChat
| CloseChat
| SendMessage (message : string)
| TimePasses (n : nat).

Definition clickTab (t : ActiveTab) (s : AppState) : AppState :=
  if ActiveTab_eqb t (activeTab s) then s
  else activeTabEffect (setActiveTab t s).

Definition clickMode (m : GenerationMode) (s : AppState) : AppState :=
  if GenerationMode_eqb m (generationMode s) then s
  else generationModeEffect (setGenerationMode m s).

Definition advanceClock (n : nat) (w : World) : World :=
  {| clock := clock w + n; sent := sent w; chatsCreated := chatsCreated w;
     chatTurns := chatTurns w; nextObjectUrl := nextObjectUrl w;
     revoked := revoked w |}.

Definition step (sw : AppState * World) (ev : Event) : AppState * World :=
  let '(s, w) := sw in
  match ev with
  | RunChatInitEffect => chatInitEffect s w
  | ClickTab t => (clickTab t s, w)
  | ClickSurface t => (setSurfaceType t s, w)
  | ClickMode m => (clickMode m s, w)
  | ChangeTileWidth v => (setTileWidth v s, w)
  | ChangeTileHeight v => (setTileHeight v s, w)
  | ChangeTileUnit u => (setTileUnit u s, w)
  | ClickExtractionType e => (setExtractionType e s, w)
  | ChangeSourceWidth v => (setSourceWidth v s, w)
  | ChangeSourceHeight v => (setSourceHeight v s, w)
  | ChangeSourceUnit u => (setSourceUnit u s, w)
  | SelectImage slot f => handleImageSelect f slot s w
  | RemoveImage slot => handleImageRemove slot s w
  | ClickGenerate => handleGeneratorSubmit s w
  | ClickProcess => handleProcessImage s w
  | OpenChat => (setIsChatOpen true s, w)
  | CloseChat => (setIsChatOpen false s, w)
  | SendMessage message => handleSendMessage message s w
  | TimePasses n => (s, advanceClock n w)
  end.

(** The first render: the three effects run in the order they are
    declared. *)
Definition mount (now : nat) : AppState * World :=
  let '(s, w) := chatInitEffect initialState (initialWorld now) in
  (generationModeEffect (activeTabEffect s), w).

Definition run (now : nat) (evs : list Event) : AppState * World :=
  fold_left step evs (mount now).

End ViewController.

(* ================================================================== *)
(** ** [handleSendMessage] around its [await]

    The handler runs up to its [await], and its rest runs when the awaited
    call has settled, on the state as it is then: [setMessages] is given a
    function of the transcript of that moment, the other setters are given
    values. *)

(** Before the [await]: the transcript gains the message of the user, the
    typing flag goes on and the error of the generator is cleared. *)
Definition sendMessageSync (now : nat) (message : string) (s : AppState)
  : AppState :=
  setError None
    (setIsBotTyping true
       (appendMessage
          {| msg_id := now; msg_text := message; sender := user |} s)).

(** After the [await] of the edit: [r] is what the [try] block came to,
    the result whose [imageUrl] it accepted or the value thrown in it, and
    [now] is the time then.  The setters of the [try], of the [catch] and
    of the [finally] act on the state [cur] of that moment. *)
Definition editReplyUpdate (now : nat) (r : JsThrown + EditResult)
  (cur : AppState) : AppState :=
  match r with
  | inr result =>
      let botText :=
        if Js.truthy (edit_text result)
        then match edit_text result with Some t => t | None => "" end
        else "Of course. Here is the updated design." in
      setIsBotTyping false
        (appendMessage
           {| msg_id := now + 1; msg_text := botText; sender := bot |}
           (setOutputImage (edit_imageUrl result) cur))
  | inl e =>
      let errorMessageText :=
        if instanceofError e then errorMessage e
        else "Sorry, I couldn't edit the image. Please try a different instruction." in
      setIsBotTyping false
        (appendMessage
           {| msg_id := now + 1; msg_text := errorMessageText; sender := bot |}
           cur)
  end.

(* ================================================================== *)
(** ** The chat form and the file input *)

(** Text the user types, as the list of its UTF-16 code units. *)
Module JsText.

(** The code units that [trim] strips: the white space and the line
    terminators of the language (tab, line feed, vertical tab, form feed,
    carriage return, space, no-break space, U+1680, U+2000 to U+200A,
    U+2028, U+2029, U+202F, U+205F, U+3000, U+FEFF). *)
Definition whiteSpaceUnits : list N :=
  [ 9; 10; 11; 12; 13; 32; 160; 5760;
    8192; 8193; 8194; 8195; 8196; 8197; 8198; 8199; 8200; 8201; 8202;
    8232; 8233; 8239; 8287; 12288; 65279 ]%N.

Definition isWhitespace (u : N) : bool := existsb (N.eqb u) whiteSpaceUnits.

Fixpoint trimStart (s : list N) : list N :=
  match s with
  | [] => []
  | u :: rest => if isWhitespace u then trimStart rest else s
  end.

Fixpoint trimEnd (s : list N) : list N :=
  match s with
  | [] => []
  | u :: rest =>
      match trimEnd rest with
      | [] => if isWhitespace u then [] else [u]
      | t => u :: t
      end
  end.

(** [s.trim()]. *)
Definition trim (s : list N) : list N := trimEnd (trimStart s).

End JsText.

(** [handleSubmit] of [Chatbot]: the message given to [onSendMessage], if
    any, and the text the input box holds afterwards. *)
Definition Chatbot_handleSubmit (input : list N) : option (list N) * list N :=
  match JsText.trim input with
  | [] => (None, input)
  | _ :: _ => (Some (JsText.trim input), [])
  end.

(** [handleFileChange] of [ImageUploader]: the file given to
    [onImageSelect], if any. *)
Definition handleFileChange (files : option (list File)) : option File :=
  match files with
  | Some (f :: _) => Some f
  | Some [] | None => None
  end.

(* ================================================================== *)
(** ** Vocabulary of the specification *)

(** *** Responses and requests *)

(** The part list an operation looks at: the parts of the first
    candidate. *)
Definition responseParts (r : GenerateContentResponse) : list Part :=
  match surfaceParts r with Some ps => ps | None => [] end.

(** The image-bearing parts of a part list, in order. *)
Fixpoint imageBlobs (ps : list Part) : list Blob :=
  match ps with
  | [] => []
  | p :: rest =>
      match inlineData p with
      | Some b => b :: imageBlobs rest
      | None => imageBlobs rest
      end
  end.

Definition firstImage (ps : list Part) : option Blob :=
  hd_error (imageBlobs ps).

Definition lastImage (ps : list Part) : option Blob :=
  hd_error (rev (imageBlobs ps)).

(** The texts a part list carries: the non-empty [text] of the parts
    without image data. *)
Fixpoint carriedTexts (ps : list Part) : list string :=
  match ps with
  | [] => []
  | p :: rest =>
      match inlineData p, text p with
      | None, Some t =>
          if Js.truthyString t then t :: carriedTexts rest
          else carriedTexts rest
      | _, _ => carriedTexts rest
      end
  end.

Definition lastText (ps : list Part) : option string :=
  hd_error (rev (carriedTexts ps)).

(** A response whose first candidate, if there is one, has a part list
    (what [editImageWithPrompt] reads without a guard). *)
Definition firstCandidateHasParts (r : GenerateContentResponse) : bool :=
  match candidates r with
  | Some (first :: _) =>
      match content first with
      | Some c => match parts c with Some _ => true | None => false end
      | None => false
      end
  | Some [] | None => true
  end.

(** A file the reader can read, and the inline data
    [generateSurfaceDesign] attaches for it. *)
Definition readable (f : File) : bool :=
  match file_base64 f with Some _ => true | None => false end.

Definition inlineOf (f : File) : InlineData :=
  {| inline_data :=
       match readAsDataURL f with
       | Some result => nth_error (Js.split "," result) 1
       | None => None
       end;
     inline_mimeType := file_type f |}.

(** The world after one request has been sent and answered. *)
Definition afterRequest (api : list Request -> Request -> ApiReply)
  (req : Request) (w : World) : World :=
  {| clock := clock w + elapsed (api (sent w) req);
     sent := (sent w ++ [req])%list;
     chatsCreated := chatsCreated w; chatTurns := chatTurns w;
     nextObjectUrl := nextObjectUrl w; revoked := revoked w |}.

(** Two worlds that differ at most by requests sent to the generation API
    and by the clock. *)
Definition sameBrowser (w w' : World) : Prop :=
  chatsCreated w' = chatsCreated w /\
  chatTurns w' = chatTurns w /\
  nextObjectUrl w' = nextObjectUrl w /\
  revoked w' = revoked w.

(** The calls that end in [generateSurfaceDesign]. *)
Inductive SurfaceOperation : Type :=
| GenerateSurfaceDesign (prompt : string) (images : list File)
| ExtractAndProcessImage (sourceImage : File) (extractionType : ExtractionType)
    (dimensions : option string)
| ApplyPatternAndMaterial (renderShot pattern material : File)
    (surfaceType : SurfaceType) (tileDimensions : option string)
| ApplyPatternOnly (renderShot pattern : File) (surfaceType : SurfaceType)
    (tileDimensions : option string)
| ApplyMaterialOnly (renderShot material : File) (surfaceType : SurfaceType).

Definition perform (api : list Request -> Request -> ApiReply)
  (op : SurfaceOperation) : Promise SurfaceResult :=
  match op with
  | GenerateSurfaceDesign prompt images =>
      generateSurfaceDesign api prompt images
  | ExtractAndProcessImage f e d => extractAndProcessImage api f e d
  | ApplyPatternAndMaterial r p m s d => applyPatternAndMaterial api r p m s d
  | ApplyPatternOnly r p s d => applyPatternOnly api r p s d
  | ApplyMaterialOnly r m s => applyMaterialOnly api r m s
  end.

(** *** Data URLs of the usual shape *)

Fixpoint allChars (p : ascii -> bool) (s : string) : bool :=
  match s with
  | EmptyString => true
  | String c rest => p c && allChars p rest
  end.

Definition isNot (x c : ascii) : bool := negb (Ascii.eqb c x).

(** A MIME type without comma, semicolon or line terminator, and a base64
    payload without comma. *)
Definition cleanMime (m : string) : bool :=
  allChars
    (fun c => isNot "," c && isNot ";" c && negb (Js.isLineTerminator c)) m.

Definition cleanData (d : string) : bool := allChars (isNot ",") d.

Definition cleanBlob (b : Blob) : bool :=
  cleanMime (mimeType b) && cleanData (data b).

(** An API whose image parts have a MIME type and a payload of that
    shape. *)
Definition wellFormedApi (api : list Request -> Request -> ApiReply) : Prop :=
  forall history req response b,
    outcome (api history req) = inr response ->
    In b (imageBlobs (responseParts response)) ->
    cleanBlob b = true.

(** The output image of the generator panel, when there is one, is the
    data URL of such an image part. *)
Definition storedOutput (s : AppState) : Prop :=
  match outputImage s with
  | None => True
  | Some url => exists b, cleanBlob b = true /\ url = dataUrl b
  end.

(** *** The chat session *)

(** The handle that the first run of the chat effect creates. *)
Definition theChat : Chat :=
  {| chat_id := 0;
     chat_model := "gemini-2.5-flash";
     systemInstruction := systemInstructionText |}.

(** One handle has been created, [chatRef] holds it, and every turn sent
    through a session went through it. *)
Definition oneSession (sw : AppState * World) : Prop :=
  chatRef (fst sw) = Some theChat /\
  chatsCreated (snd sw) = 1 /\
  Forall (fun turn => fst turn = theChat) (chatTurns (snd sw)).

(** *** Submissions and panels *)

Inductive Submission : Type := SubmitGenerator | SubmitExtractor.

(** The image slots a submission needs, in the words of the
    specification: pattern and material needs the render shot, the pattern
    and the material; pattern only, the render shot and the pattern;
    material only, the render shot and the material; an extraction, the
    source image. *)
Definition requiredSlots (sub : Submission) (s : AppState) : list ImageSlot :=
  match sub with
  | SubmitGenerator =>
      match generationMode s with
      | PatternAndMaterial => [RenderShotSlot; PatternSlot; MaterialSlot]
      | PatternOnly => [RenderShotSlot; PatternSlot]
      | MaterialOnly => [RenderShotSlot; MaterialSlot]
      end
  | SubmitExtractor => [SourceImageSlot]
  end.

(** The validation message of each submission, as the sources word it. *)
Definition validationMessage (sub : Submission) (s : AppState) : string :=
  match sub with
  | SubmitGenerator =>
      match generationMode s with
      | PatternAndMaterial => "Please upload all three images for this mode."
      | PatternOnly =>
          "Please upload a Render Shot and a Pattern Image for this mode."
      | MaterialOnly =>
          "Please upload a Render Shot and a Material Image for this mode."
      end
  | SubmitExtractor => "Please upload an image to process."
  end.

Definition submit (api : list Request -> Request -> ApiReply)
  (sub : Submission) : AppState -> World -> AppState * World :=
  match sub with
  | SubmitGenerator => handleGeneratorSubmit api
  | SubmitExtractor => handleProcessImage api
  end.

Definition panelError (sub : Submission) (s : AppState) : option string :=
  match sub with
  | SubmitGenerator => error s
  | SubmitExtractor => processingError s
  end.

Definition panelOutput (sub : Submission) (s : AppState) : option string :=
  match sub with
  | SubmitGenerator => outputImage s
  | SubmitExtractor => processedImage s
  end.

(** The image slots, the output image and the error of a panel, all
    empty. *)
Definition generatorPanelEmpty (s : AppState) : Prop :=
  renderShot s = emptyImage /\ pattern s = emptyImage /\
  material s = emptyImage /\ outputImage s = None /\ error s = None.

Definition extractorPanelEmpty (s : AppState) : Prop :=
  sourceImage s = emptyImage /\ processedImage s = None /\
  processingError s = None.

(** Every preview locator held in a slot passes the truthiness test of
    the handlers. *)
Definition previewsTruthy (s : AppState) : Prop :=
  forall slot u,
    previewUrl (getImage slot s) = Some u -> Js.truthyString u = true.

(** *** Submissions, end to end *)

Fixpoint allSome {A} (l : list (option A)) : option (list A) :=
  match l with
  | [] => Some []
  | Some a :: rest =>
      match allSome rest with Some r => Some (a :: r) | None => None end
  | None :: _ => None
  end.

(** The files of the slots a submission needs, when all are there. *)
Definition submissionFiles (sub : Submission) (s : AppState)
  : option (list File) :=
  allSome (map (fun slot => file (getImage slot s)) (requiredSlots sub s)).

(** The prompt a submission builds from the state. *)
Definition submissionPrompt (sub : Submission) (s : AppState) : string :=
  match sub with
  | SubmitGenerator =>
      let tileDimensions :=
        dimensionsString (tileWidth s) (tileHeight s) (tileUnit s) in
      match generationMode s with
      | PatternAndMaterial =>
          patternAndMaterialPrompt (surfaceType s) tileDimensions
      | PatternOnly => patternOnlyPrompt (surfaceType s) tileDimensions
      | MaterialOnly => materialOnlyPrompt (surfaceType s)
      end
  | SubmitExtractor =>
      extractPrompt (extractionType s)
        (dimensionsString (sourceWidth s) (sourceHeight s) (sourceUnit s))
  end.

(** The message each panel shows for a thrown value that is no [Error]. *)
Definition unknownErrorMessage (sub : Submission) : string :=
  match sub with
  | SubmitGenerator => "An unknown error occurred."
  | SubmitExtractor => "An unknown error occurred during processing."
  end.

Definition panelBusy (sub : Submission) (s : AppState) : bool :=
  match sub with
  | SubmitGenerator => loading s
  | SubmitExtractor => isProcessing s
  end.

Definition isEmptySlot (s : AppState) (slot : ImageSlot) : bool :=
  match file (getImage slot s) with Some _ => false | None => true end.

(** What a thrown value becomes in a message of a panel or of the chat. *)
Definition shownMessage (fallback : string) (e : JsThrown) : string :=
  if instanceofError e then errorMessage e else fallback.

(** The last message of the transcript. *)
Definition lastMessage (s : AppState) : option Message :=
  hd_error (rev (messages s)).

(** *** The ends of a text *)

Fixpoint lastUnit (s : list N) : option N :=
  match s with
  | [] => None
  | u :: rest =>
      match lastUnit rest with
      | Some l => Some l
      | None => Some u
      end
  end.

Definition notWhitespace (u : option N) : bool :=
  match u with
  | Some a => negb (JsText.isWhitespace a)
  | None => true
  end.

(** *** Preview locators *)

Definition ImageSlot_eqb (a b : ImageSlot) : bool :=
  match a, b with
  | RenderShotSlot, RenderShotSlot
  | PatternSlot, PatternSlot
  | MaterialSlot, MaterialSlot
  | SourceImageSlot, SourceImageSlot => true
  | _, _ => false
  end.

(** The locator [URL.createObjectURL] hands out at its [k]-th call. *)
Definition objectUrl (k : nat) : string := "blob:" ++ Js.ofNat k.

(** Every preview locator a slot holds was handed out by
    [URL.createObjectURL] and has not been revoked; two slots never hold
    the same one; every revoked locator was handed out before. *)
Definition previewsLive (sw : AppState * World) : Prop :=
  (forall slot u,
      previewUrl (getImage slot (fst sw)) = Some u ->
      (exists k, k < nextObjectUrl (snd sw) /\ u = "blob:" ++ Js.ofNat k) /\
      ~ In u (revoked (snd sw))) /\
  (forall slot1 slot2 u,
      slot1 <> slot2 ->
      previewUrl (getImage slot1 (fst sw)) = Some u ->
      previewUrl (getImage slot2 (fst sw)) <> Some u) /\
  (forall u,
      In u (revoked (snd sw)) ->
      exists k, k < nextObjectUrl (snd sw) /\ u = "blob:" ++ Js.ofNat k).

(** *** Responses, files and runs used in the examples *)

Definition pngA : Blob := {| data := "AAAA"; mimeType := "image/png" |}.

Definition pngB : Blob := {| data := "BBBB"; mimeType := "image/png" |}.


Definition imagePart (b : Blob) : Part :=
  {| inlineData := Some b; text := None |}.

Definition textPart (t : string) : Part :=
  {| inlineData := None; text := Some t |}.

Definition responseOf (ps : list Part) : GenerateContentResponse :=
  {| candidates := Some [ {| content := Some {| parts := Some ps |} |} ] |}.

(** An API that answers every request with the same response. *)
Definition answering (r : GenerateContentResponse)
  : list Request -> Request -> ApiReply :=
  fun _ _ => {| elapsed := 1; outcome := inr r |}.

(** A chat session that answers every turn with the same text. *)
Definition replying (t : string)
  : list (Chat * string) -> Chat -> string -> ChatReply :=
  fun _ _ _ => {| chat_elapsed := 1; chat_outcome := inr t |}.

Definition roomPhoto : File :=
  {| file_type := "image/jpeg"; file_base64 := Some "/9j/4AAQSkZJRg==" |}.

Definition tilePhoto : File :=
  {| file_type := "image/png"; file_base64 := Some "iVBORw0KGgo=" |}.

Definition marblePhoto : File :=
  {| file_type := "image/webp"; file_base64 := Some "UklGRhYAAABXRUJQ" |}.

(** A file on which the reader fails. *)
Definition brokenPhoto : File :=
  {| file_type := "image/png"; file_base64 := None |}.

(** The generator panel in the pattern-only mode, with both images
    selected; and the same with a pattern file that cannot be read. *)
Definition patternOnlyReady : AppState :=
  setPattern {| file := Some tilePhoto; previewUrl := Some "blob:1" |}
    (setRenderShot {| file := Some roomPhoto; previewUrl := Some "blob:0" |}
       (setGenerationMode PatternOnly initialState)).

Definition patternOnlyBroken : AppState :=
  setPattern {| file := Some brokenPhoto; previewUrl := Some "blob:1" |}
    patternOnlyReady.

(** A response whose one candidate has no content. *)
Definition responseWithoutContent : GenerateContentResponse :=
  {| candidates := Some [ {| content := None |} ] |}.


(* ================================================================== *)
(** * Properties *)

(* ================================================================== *)
(** ** Lemmas on strings *)

Lemma prefix_append (needle s : string) :
  String.prefix needle s = true -> exists post, s = needle ++ post.
Proof.
  revert s. induction needle as [|a n IH]; intros s H.
  - exists s. reflexivity.
  - destruct s as [|c s]; simpl in H; [discriminate|].
    destruct (ascii_dec a c) as [->|]; [|discriminate].
    destruct (IH s H) as [post ->]. exists post. reflexivity.
Qed.

Lemma includes_sound (needle hay : string) :
  Js.includes needle hay = true ->
  exists pre post, hay = pre ++ needle ++ post.
Proof.
  induction hay as [|c hay IH]; cbn [Js.includes]; intros H;
    apply orb_true_iff in H; destruct H as [H|H].
  - destruct (prefix_append _ _ H) as [post ->]. exists "", post. reflexivity.
  - discriminate.
  - destruct (prefix_append _ _ H) as [post ->]. exists "", post. reflexivity.
  - destruct (IH H) as (pre & post & ->).
    exists (String c pre), post. reflexivity.
Qed.

Lemma truthy_dataUrl (b : Blob) : Js.truthy (Some (dataUrl b)) = true.
Proof. reflexivity. Qed.

(* ================================================================== *)
(** ** Lemmas on the two loops *)

Lemma surfaceLoop_first (ps : list Part) :
  surfaceLoop ps None = option_map dataUrl (firstImage ps).
Proof.
  unfold firstImage.
  induction ps as [|p ps IH]; simpl; [reflexivity|].
  destruct (inlineData p); [reflexivity | exact IH].
Qed.

Lemma editLoop_acc (ps : list Part) (acc : option string * option string) :
  fold_left editLoopBody ps acc =
  (match lastImage ps with Some b => Some (dataUrl b) | None => fst acc end,
   match lastText ps with Some t => Some t | None => snd acc end).
Proof.
  unfold lastImage, lastText.
  revert acc. induction ps as [|p ps IH]; intros [i t]; simpl.
  - reflexivity.
  - rewrite IH. unfold editLoopBody.
    destruct (inlineData p) as [b|]; simpl.
    + f_equal.
      destruct (rev (imageBlobs ps)) as [|x l] eqn:E; reflexivity.
    + destruct (text p) as [t'|]; simpl; [|reflexivity].
      destruct (Js.truthyString t') eqn:Ht; simpl; [|reflexivity].
      f_equal.
      destruct (rev (carriedTexts ps)) as [|x l] eqn:E; reflexivity.
Qed.

Lemma lastImage_none (ps : list Part) :
  imageBlobs ps = [] -> lastImage ps = None.
Proof. unfold lastImage. intros ->. reflexivity. Qed.

Lemma lastText_truthy (ps : list Part) (t : string) :
  lastText ps = Some t -> Js.truthyString t = true.
Proof.
  unfold lastText. intros H.
  assert (Hin : In t (carriedTexts ps)).
  { apply in_rev. destruct (rev (carriedTexts ps)); [discriminate|].
    injection H as ->. left. reflexivity. }
  clear H. induction ps as [|p ps IH]; simpl in Hin; [contradiction|].
  destruct (inlineData p); [auto|].
  destruct (text p) as [t'|]; [|auto].
  destruct (Js.truthyString t') eqn:E; [|auto].
  destruct Hin as [->|Hin]; auto.
Qed.

(* ================================================================== *)
(** ** What one call of an operation does *)

Section OrchestratorFacts.

Variable api : list Request -> Request -> ApiReply.

Lemma Promise_all_files (images : list File) (w : World) :
  Promise_all
    (map (fun image =>
            base64 <- fileToBase64 image ;;
            resolve {| inline_data := base64;
                       inline_mimeType := file_type image |})
         images) w
  = (w, if forallb readable images then inr (map inlineOf images)
        else inl (NonError "ProgressEvent")).
Proof.
  induction images as [|f images IH]; [reflexivity|].
  cbn [map Promise_all forallb].
  unfold await at 1. unfold await at 1.
  unfold fileToBase64 at 1. unfold ofResult, readable at 1. unfold inlineOf at 1. unfold readAsDataURL.
  destruct (file_base64 f) as [b|]; cbn [andb]; [|reflexivity].
  unfold resolve at 1. cbv beta iota. unfold await at 1. rewrite IH.
  destruct (forallb _ images); reflexivity.
Qed.

(** [generateSurfaceDesign] sends nothing when a file cannot be read, and
    otherwise sends one request, which carries the files in order and
    then the prompt. *)
Lemma generateSurfaceDesign_run (prompt : string) (images : list File)
  (w : World) :
  generateSurfaceDesign api prompt images w =
  if forallb readable images then
    let req := surfaceRequest prompt (map inlineOf images) in
    (afterRequest api req w,
     match outcome (api (sent w) req) with
     | inl e => inl e
     | inr response => surfaceUnpack response
     end)
  else (w, inl (NonError "ProgressEvent")).
Proof.
  unfold generateSurfaceDesign, tryCatch. unfold await at 1.
  rewrite Promise_all_files.
  destruct (forallb readable images); [|reflexivity].
  unfold await, ai_models_generateContent, ofResult, afterRequest, throw.
  cbv zeta.
  destruct (outcome (api (sent w) _)) as [e|response]; [reflexivity|].
  destruct (surfaceUnpack response); reflexivity.
Qed.

Lemma editUnpack_throws_Error (response : GenerateContentResponse)
  (e : JsThrown) :
  editUnpack response = inl e -> instanceofError e = true.
Proof.
  unfold editUnpack, editParts.
  destruct (candidates response) as [[|first l]|];
    try destruct (content first) as [c|];
    try destruct (parts c) as [ps|];
    try destruct (fold_left editLoopBody ps (None, None)) as [i t];
    cbn [negb Js.truthy]; try destruct (Js.truthy i);
    cbn [negb]; try destruct t as [t|]; try destruct (Js.truthyString t);
    intros H; inversion H; reflexivity.
Qed.

(** [editImageWithPrompt] always sends its one request. *)
Lemma editImageWithPrompt_run (base64Image : option string)
  (mime prompt : string) (w : World) :
  editImageWithPrompt api base64Image mime prompt w =
  let req := editRequest base64Image mime prompt in
  (afterRequest api req w,
   match outcome (api (sent w) req) with
   | inl e =>
       inl (if instanceofError e then e
            else ErrorObj "An unknown error occurred while editing the image.")
   | inr response => editUnpack response
   end).
Proof.
  unfold editImageWithPrompt, tryCatch, await, ai_models_generateContent,
    ofResult, afterRequest, throw.
  cbv zeta.
  destruct (outcome (api (sent w) _)) as [e|response].
  - destruct (instanceofError e); reflexivity.
  - destruct (editUnpack response) as [e|r] eqn:E; [|reflexivity].
    rewrite (editUnpack_throws_Error _ _ E). reflexivity.
Qed.

End OrchestratorFacts.

(** What the two operations make of a response. *)
Lemma surfaceUnpack_first (response : GenerateContentResponse) :
  surfaceUnpack response =
  match firstImage (responseParts response) with
  | Some b => inr {| imageUrl := Some (dataUrl b) |}
  | None => inl (ErrorObj surfaceNoImage)
  end.
Proof.
  unfold surfaceUnpack, responseParts.
  destruct (surfaceParts response) as [ps|]; [|reflexivity].
  rewrite surfaceLoop_first.
  destruct (firstImage ps); reflexivity.
Qed.

Lemma editUnpack_last (response : GenerateContentResponse) :
  firstCandidateHasParts response = true ->
  editUnpack response =
  match lastImage (responseParts response) with
  | Some b =>
      inr {| edit_imageUrl := Some (dataUrl b);
             edit_text := lastText (responseParts response) |}
  | None =>
      inl (ErrorObj
             match lastText (responseParts response) with
             | Some t => editNoImageWithText t
             | None => editNoImage
             end)
  end.
Proof.
  unfold firstCandidateHasParts, editUnpack, editParts, responseParts,
    surfaceParts.
  destruct (candidates response) as [[|first l]|]; try reflexivity.
  destruct (content first) as [c|]; [|discriminate].
  destruct (parts c) as [ps|]; [|discriminate].
  intros _. rewrite editLoop_acc. cbn [fst snd].
  destruct (lastImage ps) as [b|].
  - rewrite truthy_dataUrl. cbn [negb].
    destruct (lastText ps); reflexivity.
  - cbn [Js.truthy negb].
    destruct (lastText ps) as [t|] eqn:E; [|reflexivity].
    rewrite (lastText_truthy _ _ E). reflexivity.
Qed.

Lemma firstImage_none (ps : list Part) :
  imageBlobs ps = [] -> firstImage ps = None.
Proof. unfold firstImage. intros ->. reflexivity. Qed.

(* ================================================================== *)
(** ** Data URLs: what is built is what is parsed back *)

Lemma append_assoc (a b c : string) : (a ++ b) ++ c = a ++ b ++ c.
Proof. induction a as [|x a IH]; simpl; [reflexivity | now rewrite IH]. Qed.

Lemma allChars_app (p : ascii -> bool) (a b : string) :
  allChars p (a ++ b) = allChars p a && allChars p b.
Proof.
  induction a as [|x a IH]; simpl; [reflexivity|].
  rewrite IH. apply andb_assoc.
Qed.

Lemma allChars_weaken (p q : ascii -> bool) (s : string) :
  (forall c, p c = true -> q c = true) ->
  allChars p s = true -> allChars q s = true.
Proof.
  intros Hpq. induction s as [|c s IH]; simpl; [reflexivity|].
  intros H. apply andb_true_iff in H. destruct H as [Hc Hs].
  rewrite (Hpq _ Hc), (IH Hs). reflexivity.
Qed.

Lemma split_clean (sep : ascii) (s : string) :
  allChars (isNot sep) s = true -> Js.split sep s = [s].
Proof.
  induction s as [|c s IH]; simpl; [reflexivity|].
  intros H. apply andb_true_iff in H. destruct H as [Hc Hs].
  unfold isNot in Hc. apply negb_true_iff in Hc. rewrite Hc, (IH Hs).
  reflexivity.
Qed.

Lemma split_app (sep : ascii) (a b : string) :
  allChars (isNot sep) a = true ->
  Js.split sep (a ++ String sep b) = a :: Js.split sep b.
Proof.
  induction a as [|c a IH]; simpl.
  - intros _. rewrite Ascii.eqb_refl. reflexivity.
  - intros H. apply andb_true_iff in H. destruct H as [Hc Ha].
    unfold isNot in Hc. apply negb_true_iff in Hc. rewrite Hc, (IH Ha).
    reflexivity.
Qed.

Lemma lazyUntilSemi_app (g rest : string) :
  allChars (fun c => isNot ";" c && negb (Js.isLineTerminator c)) g = true ->
  Js.lazyUntilSemi (g ++ String ";" rest) = Some g.
Proof.
  induction g as [|c g IH]; cbn [append Js.lazyUntilSemi allChars].
  - intros _. reflexivity.
  - intros H. apply andb_true_iff in H. destruct H as [Hc Hg].
    apply andb_true_iff in Hc. destruct Hc as [Hsemi Hline].
    unfold isNot in Hsemi. apply negb_true_iff in Hsemi.
    apply negb_true_iff in Hline.
    rewrite Hsemi, Hline, (IH Hg). reflexivity.
Qed.

(** [parseDataUrl] gives back the MIME type and the payload from which
    [dataUrl] built the URL. *)
Lemma parseDataUrl_dataUrl (b : Blob) :
  cleanBlob b = true ->
  parseDataUrl (dataUrl b)
  = inr {| parsed_mimeType := mimeType b; base64 := Some (data b) |}.
Proof.
  unfold cleanBlob, cleanMime, cleanData. intros H.
  apply andb_true_iff in H. destruct H as [Hm Hd].
  assert (Hcomma : allChars (isNot ",") (mimeType b) = true).
  { revert Hm. apply allChars_weaken. intros c Hc.
    apply andb_true_iff in Hc. destruct Hc as [Hc _].
    apply andb_true_iff in Hc. tauto. }
  assert (Hsemi : allChars (fun c => isNot ";" c && negb (Js.isLineTerminator c))
                    (mimeType b) = true).
  { revert Hm. apply allChars_weaken. intros c Hc.
    apply andb_true_iff in Hc. destruct Hc as [Hc Hl].
    apply andb_true_iff in Hc. destruct Hc as [_ Hc]. rewrite Hc, Hl.
    reflexivity. }
  assert (Hurl : dataUrl b
                 = ("data:" ++ mimeType b ++ ";base64") ++ String "," (data b)).
  { unfold dataUrl. rewrite !append_assoc. reflexivity. }
  unfold parseDataUrl. rewrite Hurl, split_app, (split_clean _ _ Hd).
  - cbn [nth append Js.matchColonSemi Ascii.eqb Bool.eqb].
    change (mimeType b ++ ";base64") with (mimeType b ++ String ";" "base64").
    rewrite (lazyUntilSemi_app _ _ Hsemi). reflexivity.
  - rewrite !allChars_app, Hcomma. reflexivity.
Qed.

(** The data a readable file is attached with is its base64 text. *)
Lemma inlineOf_clean (f : File) (b : string) :
  file_base64 f = Some b ->
  allChars (isNot ",") (file_type f) = true ->
  cleanData b = true ->
  inlineOf f = {| inline_data := Some b; inline_mimeType := file_type f |}.
Proof.
  intros Hb Ht Hd. unfold inlineOf, readAsDataURL. rewrite Hb. f_equal.
  set (m := if Js.truthyString (file_type f) then file_type f
            else "application/octet-stream").
  assert (Hm : allChars (isNot ",") m = true).
  { unfold m. destruct (Js.truthyString (file_type f)); [exact Ht|reflexivity]. }
  replace ("data:" ++ m ++ ";base64," ++ b)
    with (("data:" ++ m ++ ";base64") ++ String "," b)
    by (rewrite !append_assoc; reflexivity).
  rewrite split_app, (split_clean _ _ Hd); [reflexivity|].
  rewrite !allChars_app, Hm. reflexivity.
Qed.

(* ================================================================== *)
(** ** C1: which image part of a response is used *)

(** [generateSurfaceDesign] uses the first image part of the response. *)
Lemma generateSurfaceDesign_first_image
  (api : list Request -> Request -> ApiReply) (prompt : string)
  (images : list File) (w : World) (response : GenerateContentResponse)
  (b : Blob) :
  forallb readable images = true ->
  outcome (api (sent w) (surfaceRequest prompt (map inlineOf images)))
    = inr response ->
  firstImage (responseParts response) = Some b ->
  snd (generateSurfaceDesign api prompt images w)
    = inr {| imageUrl := Some (dataUrl b) |}.
Proof.
  intros Hr Ho Hf. rewrite generateSurfaceDesign_run, Hr. cbv zeta.
  cbn [snd]. rewrite Ho, surfaceUnpack_first, Hf. reflexivity.
Qed.

(** [editImageWithPrompt] has no [break]: each image part overwrites the
    one before, so the last image part is used. *)
Lemma editImageWithPrompt_last_image
  (api : list Request -> Request -> ApiReply) (base64Image : option string)
  (mime prompt : string) (w : World) (response : GenerateContentResponse)
  (b : Blob) :
  outcome (api (sent w) (editRequest base64Image mime prompt)) = inr response ->
  firstCandidateHasParts response = true ->
  lastImage (responseParts response) = Some b ->
  snd (editImageWithPrompt api base64Image mime prompt w)
    = inr {| edit_imageUrl := Some (dataUrl b);
             edit_text := lastText (responseParts response) |}.
Proof.
  intros Ho Hp Hl. rewrite editImageWithPrompt_run. cbv zeta. cbn [snd].
  rewrite Ho, (editUnpack_last _ Hp), Hl. reflexivity.
Qed.

(** C1.  Claim: when the part list of a response holds more than one image
    part, both operations use the first and ignore the later ones.  On a
    response with the two image parts [pngA] and [pngB], in this order,
    [generateSurfaceDesign] returns the data URL of [pngA], but
    [editImageWithPrompt] returns the data URL of [pngB], the last image
    part, and not that of the first. *)
Theorem editImageWithPrompt_two_images_returns_second :
  let response := responseOf [imagePart pngA; imagePart pngB] in
  firstImage (responseParts response) = Some pngA /\
  snd (generateSurfaceDesign (answering response) "prompt" [roomPhoto]
         (initialWorld 0))
    = inr {| imageUrl := Some "data:image/png;base64,AAAA" |} /\
  snd (editImageWithPrompt (answering response) (Some "AAAA") "image/png"
         "make the texture darker" (initialWorld 0))
    = inr {| edit_imageUrl := Some "data:image/png;base64,BBBB";
             edit_text := None |} /\
  dataUrl pngB <> dataUrl pngA.
Proof.
  cbv zeta. repeat split; try (vm_compute; reflexivity).
  vm_compute. discriminate.
Qed.

(* ================================================================== *)
(** ** C2: the error when the response has no image part *)

(** C2.  Claim: when the response has no image part, the error an
    operation throws includes the text the response carried.  On the
    response whose one part is the text ["I cannot edit this."],
    [editImageWithPrompt] throws the message that includes that text, but
    [generateSurfaceDesign] never looks at the text of a part and throws
    its fixed message, which does not include it. *)
Theorem generateSurfaceDesign_error_omits_response_text :
  let response := responseOf [textPart "I cannot edit this."] in
  imageBlobs (responseParts response) = [] /\
  carriedTexts (responseParts response) = ["I cannot edit this."] /\
  snd (editImageWithPrompt (answering response) (Some "AAAA") "image/png"
         "make the texture darker" (initialWorld 0))
    = inl (ErrorObj (editNoImageWithText "I cannot edit this.")) /\
  Js.includes "I cannot edit this." (editNoImageWithText "I cannot edit this.")
    = true /\
  snd (generateSurfaceDesign (answering response) "prompt" [roomPhoto]
         (initialWorld 0))
    = inl (ErrorObj surfaceNoImage) /\
  Js.includes "I cannot edit this." surfaceNoImage = false.
Proof. cbv zeta. repeat split; vm_compute; reflexivity. Qed.

(** X21.  If the response has no image part, both operations throw an
    [Error].  [editImageWithPrompt], on a response whose first candidate
    has a part list (or that has no candidate), throws a message that
    includes the last non-empty text of the parts when there is one, and
    otherwise its generic message.  [generateSurfaceDesign], given files
    that can be read, throws its fixed message whether or not the response
    carried text. *)
Theorem no_image_part_throws
  (api : list Request -> Request -> ApiReply) (w : World)
  (response : GenerateContentResponse) :
  imageBlobs (responseParts response) = [] ->
  (forall base64Image mime prompt,
      outcome (api (sent w) (editRequest base64Image mime prompt))
        = inr response ->
      exists e,
        snd (editImageWithPrompt api base64Image mime prompt w) = inl e /\
        instanceofError e = true /\
        (firstCandidateHasParts response = true ->
         match lastText (responseParts response) with
         | Some t =>
             e = ErrorObj (editNoImageWithText t) /\
             exists pre post, errorMessage e = pre ++ t ++ post
         | None => e = ErrorObj editNoImage
         end)) /\
  (forall prompt images,
      forallb readable images = true ->
      outcome (api (sent w) (surfaceRequest prompt (map inlineOf images)))
        = inr response ->
      snd (generateSurfaceDesign api prompt images w)
        = inl (ErrorObj surfaceNoImage)).
Proof.
  intros Hno. split.
  - intros base64Image mime prompt Ho.
    rewrite editImageWithPrompt_run. cbv zeta. cbn [snd]. rewrite Ho.
    destruct (editUnpack response) as [e|r] eqn:E.
    + exists e. split; [reflexivity|].
      split; [exact (editUnpack_throws_Error _ _ E)|].
      intros Hp. rewrite (editUnpack_last _ Hp), (lastImage_none _ Hno) in E.
      destruct (lastText (responseParts response)) as [t|];
        injection E as <-; [|reflexivity].
      split; [reflexivity|].
      exists ("The AI responded but did not return an image: " ++ Js.dq), Js.dq.
      reflexivity.
    + exfalso. revert E. unfold editUnpack, editParts.
      unfold responseParts, surfaceParts in Hno.
      destruct (candidates response) as [[|first l]|]; try discriminate.
      destruct (content first) as [c|]; [|discriminate].
      destruct (parts c) as [ps|]; [|discriminate].
      rewrite editLoop_acc, (lastImage_none _ Hno). cbn [fst snd Js.truthy negb].
      destruct (lastText ps) as [t|]; [destruct (Js.truthyString t)|];
        discriminate.
  - intros prompt images Hr Ho.
    rewrite generateSurfaceDesign_run, Hr. cbv zeta. cbn [snd].
    rewrite Ho, surfaceUnpack_first, (firstImage_none _ Hno). reflexivity.
Qed.

Lemma no_image_part_throws_witness :
  let response := responseOf [textPart "I cannot edit this."] in
  (exists e,
      snd (editImageWithPrompt (answering response) (Some "AAAA") "image/png"
             "make the texture darker" (initialWorld 0)) = inl e /\
      e = ErrorObj (editNoImageWithText "I cannot edit this.")) /\
  snd (generateSurfaceDesign (answering response) "prompt" [roomPhoto]
         (initialWorld 0))
    = inl (ErrorObj surfaceNoImage).
Proof.
  cbv zeta.
  destruct (no_image_part_throws
              (answering (responseOf [textPart "I cannot edit this."]))
              (initialWorld 0)
              (responseOf [textPart "I cannot edit this."])
              eq_refl) as [Hedit Hsurface].
  split.
  - destruct (Hedit (Some "AAAA") "image/png" "make the texture darker" eq_refl)
      as (e & He & _ & Hmsg).
    exists e. split; [exact He|].
    exact (proj1 (Hmsg eq_refl)).
  - exact (Hsurface "prompt" [roomPhoto] eq_refl eq_refl).
Defined.

(* ================================================================== *)
(** ** C6: the pattern-only example, end to end *)

(** C6.  With a render shot and a pattern image that can be read, surface
    [Flooring] and no dimensions, [applyPatternOnly] sends one request.
    Its parts are the two images, in order, and then one prompt; the
    prompt includes "Apply ONLY the visual pattern" and "flooring".  When
    the response has one image part, the operation returns the data URL of
    that part and throws nothing. *)
Theorem applyPatternOnly_flooring_example
  (api : list Request -> Request -> ApiReply)
  (renderShotFile patternFile : File) (w : World)
  (response : GenerateContentResponse) (b : Blob) :
  let prompt := patternOnlyPrompt Flooring None in
  let req := surfaceRequest prompt [inlineOf renderShotFile; inlineOf patternFile] in
  readable renderShotFile = true ->
  readable patternFile = true ->
  outcome (api (sent w) req) = inr response ->
  imageBlobs (responseParts response) = [b] ->
  Js.includes "Apply ONLY the visual pattern" prompt = true /\
  Js.includes "flooring" prompt = true /\
  contents req =
    [ ReqInline (inlineOf renderShotFile); ReqInline (inlineOf patternFile);
      ReqText prompt ] /\
  exists w',
    applyPatternOnly api renderShotFile patternFile Flooring None w
      = (w', inr {| imageUrl := Some (dataUrl b) |}) /\
    sent w' = (sent w ++ [req])%list.
Proof.
  intros prompt req Hr Hp Ho Hb.
  split; [vm_compute; reflexivity|].
  split; [vm_compute; reflexivity|].
  split; [reflexivity|].
  unfold applyPatternOnly. rewrite generateSurfaceDesign_run.
  cbn [forallb]. rewrite Hr, Hp. cbn [andb map]. cbv zeta.
  fold prompt. fold req. rewrite Ho, surfaceUnpack_first.
  unfold firstImage. rewrite Hb. cbn [hd_error].
  eexists. split; reflexivity.
Qed.

Lemma applyPatternOnly_flooring_example_witness :
  Js.includes "Apply ONLY the visual pattern" (patternOnlyPrompt Flooring None)
    = true /\
  Js.includes "flooring" (patternOnlyPrompt Flooring None) = true /\
  applyPatternOnly (answering (responseOf [imagePart pngA]))
    roomPhoto tilePhoto Flooring None (initialWorld 0)
  = ({| clock := 1;
        sent :=
          [ surfaceRequest (patternOnlyPrompt Flooring None)
              [ {| inline_data := Some "/9j/4AAQSkZJRg==";
                   inline_mimeType := "image/jpeg" |};
                {| inline_data := Some "iVBORw0KGgo=";
                   inline_mimeType := "image/png" |} ] ];
        chatsCreated := 0; chatTurns := []; nextObjectUrl := 0;
        revoked := [] |},
     inr {| imageUrl := Some "data:image/png;base64,AAAA" |}).
Proof.
  destruct (applyPatternOnly_flooring_example
              (answering (responseOf [imagePart pngA]))
              roomPhoto tilePhoto (initialWorld 0)
              (responseOf [imagePart pngA]) pngA
              eq_refl eq_refl eq_refl eq_refl)
    as (H1 & H2 & _ & w' & Hrun & _).
  split; [exact H1|]. split; [exact H2|].
  vm_compute. reflexivity.
Defined.

(* ================================================================== *)
(** ** C10: the result of the surface operations *)

Lemma generateSurfaceDesign_returns
  (api : list Request -> Request -> ApiReply) (prompt : string)
  (images : list File) (w w' : World) (result : SurfaceResult) :
  generateSurfaceDesign api prompt images w = (w', inr result) ->
  exists req response b,
    sent w' = (sent w ++ [req])%list /\
    outcome (api (sent w) req) = inr response /\
    firstImage (responseParts response) = Some b /\
    imageUrl result = Some ("data:" ++ mimeType b ++ ";base64," ++ data b).
Proof.
  rewrite generateSurfaceDesign_run.
  destruct (forallb readable images); [|discriminate].
  cbv zeta. intros H. injection H as Hw Hres.
  destruct (outcome (api (sent w) _)) as [e|response] eqn:Ho; [discriminate|].
  rewrite surfaceUnpack_first in Hres.
  destruct (firstImage (responseParts response)) as [b|] eqn:Hf;
    [|discriminate].
  injection Hres as <-.
  exists (surfaceRequest prompt (map inlineOf images)), response, b.
  subst w'. repeat split; try assumption; reflexivity.
Qed.

(** C10.  Whenever [generateSurfaceDesign], or one of the four operations
    built on it, returns without throwing, the [imageUrl] it returns is
    not null: it is the data URL made of the MIME type and the base64
    bytes of the first image part of the response to the one request it
    sent. *)
Theorem surface_result_is_data_url
  (api : list Request -> Request -> ApiReply) (op : SurfaceOperation)
  (w w' : World) (result : SurfaceResult) :
  perform api op w = (w', inr result) ->
  exists req response b,
    sent w' = (sent w ++ [req])%list /\
    outcome (api (sent w) req) = inr response /\
    firstImage (responseParts response) = Some b /\
    imageUrl result = Some ("data:" ++ mimeType b ++ ";base64," ++ data b).
Proof.
  destruct op; cbn [perform];
    unfold extractAndProcessImage, applyPatternAndMaterial, applyPatternOnly,
      applyMaterialOnly;
    apply generateSurfaceDesign_returns.
Qed.

Lemma surface_result_is_data_url_witness :
  exists req response b,
    sent (fst (perform (answering (responseOf [textPart "Done."; imagePart pngB]))
                 (ApplyMaterialOnly roomPhoto marblePhoto Walls)
                 (initialWorld 0)))
      = ([] ++ [req])%list /\
    outcome (answering (responseOf [textPart "Done."; imagePart pngB]) [] req)
      = inr response /\
    firstImage (responseParts response) = Some b /\
    Some "data:image/png;base64,BBBB"
      = Some ("data:" ++ mimeType b ++ ";base64," ++ data b).
Proof.
  exact (surface_result_is_data_url
           (answering (responseOf [textPart "Done."; imagePart pngB]))
           (ApplyMaterialOnly roomPhoto marblePhoto Walls)
           (initialWorld 0) _ {| imageUrl := Some "data:image/png;base64,BBBB" |}
           eq_refl).
Defined.

(* ================================================================== *)
(** ** The view controller: what the handlers leave alone *)

Lemma sameBrowser_refl (w : World) : sameBrowser w w.
Proof. repeat split. Qed.

Lemma sameBrowser_afterRequest (api : list Request -> Request -> ApiReply)
  (req : Request) (w : World) : sameBrowser w (afterRequest api req w).
Proof. repeat split. Qed.

Create HintDb browser.
#[local] Hint Resolve sameBrowser_refl sameBrowser_afterRequest : browser.

Section ViewControllerFacts.

Variable api : list Request -> Request -> ApiReply.
Variable chatApi : list (Chat * string) -> Chat -> string -> ChatReply.

Lemma generateSurfaceDesign_sameBrowser (prompt : string)
  (images : list File) (w : World) :
  sameBrowser w (fst (generateSurfaceDesign api prompt images w)).
Proof.
  rewrite generateSurfaceDesign_run.
  destruct (forallb readable images); cbn [fst]; auto with browser.
Qed.

Lemma generatorCall_sameBrowser (s : AppState) (w : World) :
  sameBrowser w (fst (generatorCall api s w)).
Proof.
  unfold generatorCall, applyPatternAndMaterial, applyPatternOnly,
    applyMaterialOnly.
  destruct (generationMode s);
    destruct (file (renderShot s)); destruct (file (pattern s));
    destruct (file (material s));
    try apply generateSurfaceDesign_sameBrowser;
    cbn [throw fst]; auto with browser.
Qed.

(** The edit attempt of the chat sends the edit request when the stored
    data URL parses, and nothing otherwise. *)
Lemma chatEditAttempt_world (url message : string) (w : World) :
  fst (chatEditAttempt api url message w) =
  match parseDataUrl url with
  | inl _ => w
  | inr parsed =>
      afterRequest api
        (editRequest (base64 parsed) (parsed_mimeType parsed) message) w
  end.
Proof.
  unfold chatEditAttempt. unfold await at 1. unfold ofResult at 1.
  destruct (parseDataUrl url) as [e|parsed]; [reflexivity|].
  unfold await. rewrite editImageWithPrompt_run. cbv zeta.
  destruct (outcome (api (sent w) _)) as [e|response].
  - reflexivity.
  - destruct (editUnpack response) as [e|r]; [reflexivity|].
    destruct (Js.truthy (edit_imageUrl r)); reflexivity.
Qed.

Lemma chatEditAttempt_sameBrowser (url message : string) (w : World) :
  sameBrowser w (fst (chatEditAttempt api url message w)).
Proof.
  rewrite chatEditAttempt_world.
  destruct (parseDataUrl url); auto with browser.
Qed.

End ViewControllerFacts.

(* ================================================================== *)
(** ** C8: the chat session handle *)

Section Session.

Variable api : list Request -> Request -> ApiReply.
Variable chatApi : list (Chat * string) -> Chat -> string -> ChatReply.

Lemma mount_oneSession (now : nat) : oneSession (mount now).
Proof. repeat split. constructor. Qed.

Lemma handleSendMessage_oneSession (message : string) (s : AppState)
  (w : World) :
  oneSession (s, w) -> oneSession (handleSendMessage api chatApi message s w).
Proof.
  intros (Href & Hn & Hturns). cbn [fst snd] in *.
  unfold handleSendMessage.
  destruct (Js.truthy (outputImage s) && isGenerator (activeTab s)).
  - pose proof (chatEditAttempt_sameBrowser api
                  (match outputImage s with Some u => u | None => "" end)
                  message w) as (Hc & Ht & _ & _).
    destruct (chatEditAttempt api _ message w) as [w1 [e|r]];
      cbn [fst snd] in *; (split; [exact Href|]); cbn [snd];
      rewrite Hc, Ht; split; assumption.
  - rewrite Href. unfold Chat_sendMessage.
    destruct (chat_outcome (chatApi (chatTurns w) theChat message));
      (split; [exact Href|]); cbn [fst snd chatsCreated chatTurns];
      (split; [exact Hn|]);
      apply Forall_app; (split; [exact Hturns|]);
      constructor; [reflexivity | constructor | reflexivity | constructor].
Qed.

(** [handleSendMessage] never creates a session: with an empty [chatRef]
    the message is dropped. *)
Lemma handleSendMessage_creates_no_session (message : string) (s : AppState)
  (w : World) :
  let sw' := handleSendMessage api chatApi message s w in
  chatsCreated (snd sw') = chatsCreated w /\ chatRef (fst sw') = chatRef s.
Proof.
  cbv zeta. unfold handleSendMessage.
  destruct (Js.truthy (outputImage s) && isGenerator (activeTab s)).
  - pose proof (chatEditAttempt_sameBrowser api
                  (match outputImage s with Some u => u | None => "" end)
                  message w) as (Hc & _).
    destruct (chatEditAttempt api _ message w) as [w1 [e|r]];
      cbn [fst snd] in *; split; [exact Hc | reflexivity | exact Hc | reflexivity].
  - destruct (chatRef s) as [chat|] eqn:E; [|split; [reflexivity | exact E]].
    unfold Chat_sendMessage.
    destruct (chat_outcome (chatApi (chatTurns w) chat message));
      (split; [reflexivity | exact E]).
Qed.

Lemma step_oneSession (sw : AppState * World) (ev : Event) :
  oneSession sw -> oneSession (step api chatApi sw ev).
Proof.
  destruct sw as [s w]. intros H.
  destruct ev; cbn [step];
    try (destruct H as (Href & Hn & Hturns); repeat split; assumption).
  - (* the chat effect, run again *)
    unfold chatInitEffect. destruct H as (Href & Hn & Hturns).
    cbn [fst] in Href. rewrite Href. repeat split; assumption.
  - (* a tab *)
    destruct H as (Href & Hn & Hturns). unfold clickTab.
    destruct (ActiveTab_eqb t (activeTab s)); [repeat split; assumption|].
    unfold activeTabEffect. cbn [activeTab setActiveTab].
    destruct t; repeat split; assumption.
  - (* a mode *)
    destruct H as (Href & Hn & Hturns). unfold clickMode.
    destruct (GenerationMode_eqb m (generationMode s));
      repeat split; assumption.
  - (* an image is selected *)
    destruct H as (Href & Hn & Hturns). unfold handleImageSelect.
    cbn [fst snd] in *.
    destruct slot; cbn [getImage];
      (destruct (previewUrl _) as [u|]; [destruct (Js.truthyString u)|]);
      (split; [exact Href | split; [exact Hn | exact Hturns]]).
  - (* an image is removed *)
    destruct H as (Href & Hn & Hturns). unfold handleImageRemove.
    cbn [fst snd] in *.
    destruct slot; cbn [getImage];
      (destruct (previewUrl _) as [u|]; [destruct (Js.truthyString u)|]);
      (split; [exact Href | split; [exact Hn | exact Hturns]]).
  - (* generate *)
    destruct H as (Href & Hn & Hturns). unfold handleGeneratorSubmit.
    pose proof (generatorCall_sameBrowser api s w) as (Hc & Ht & _ & _).
    cbn [fst snd] in *.
    destruct (generatorCall api s w) as [w1 [e|r]]; cbn [fst snd] in *.
    + destruct (instanceofError e); (split; [exact Href|]);
        cbn [snd]; rewrite Hc, Ht; split; assumption.
    + destruct (Js.truthy (imageUrl r)); (split; [exact Href|]);
        cbn [snd]; rewrite Hc, Ht; split; assumption.
  - (* process *)
    destruct H as (Href & Hn & Hturns). unfold handleProcessImage.
    cbn [fst snd] in *.
    destruct (file (sourceImage s)) as [src|];
      [|repeat split; assumption].
    unfold extractAndProcessImage.
    pose proof (generateSurfaceDesign_sameBrowser api
                  (extractPrompt (extractionType s)
                     (dimensionsString (sourceWidth s) (sourceHeight s)
                        (sourceUnit s)))
                  [src] w) as (Hc & Ht & _ & _).
    destruct (generateSurfaceDesign api _ [src] w) as [w1 [e|r]];
      cbn [fst snd] in *.
    + destruct (instanceofError e); (split; [exact Href|]);
        cbn [snd]; rewrite Hc, Ht; split; assumption.
    + destruct (Js.truthy (imageUrl r)); (split; [exact Href|]);
        cbn [snd]; rewrite Hc, Ht; split; assumption.
  - (* a chat message *)
    apply handleSendMessage_oneSession. exact H.
Qed.

Lemma run_oneSession (now : nat) (evs : list Event) :
  oneSession (run api chatApi now evs).
Proof.
  unfold run.
  assert (G : forall sw, oneSession sw ->
                oneSession (fold_left (step api chatApi) evs sw)).
  { induction evs as [|ev evs IH]; intros sw H; [exact H|].
    cbn [fold_left]. apply IH. apply step_oneSession. exact H. }
  apply G. apply mount_oneSession.
Qed.

End Session.

(** The claim as stated fails in its words "lazily on first use": right
    after the first render, before any chat turn, the handle has already
    been created. *)
Lemma chat_session_created_at_mount :
  let sw := run (answering (responseOf [])) (replying "Hello.") 0 [] in
  chatTurns (snd sw) = [] /\
  chatsCreated (snd sw) = 1 /\
  chatRef (fst sw) = Some theChat.
Proof. cbv zeta. repeat split. Qed.

(** C8, amended.  Exactly one chat session handle is created during the
    lifetime of the application.  The effect of the first render creates
    it, before any chat turn and whether or not the chat is used; the
    effect creates nothing while the handle exists; and every chat turn
    that goes through a session uses that handle. *)
Theorem one_chat_session
  (api : list Request -> Request -> ApiReply)
  (chatApi : list (Chat * string) -> Chat -> string -> ChatReply)
  (now : nat) (evs : list Event) :
  let sw := run api chatApi now evs in
  chatsCreated (snd (mount now)) = 1 /\
  chatsCreated (snd sw) = 1 /\
  chatRef (fst sw) = Some theChat /\
  chatInitEffect (fst sw) (snd sw) = sw /\
  Forall (fun turn => fst turn = theChat) (chatTurns (snd sw)).
Proof.
  cbv zeta.
  destruct (run_oneSession api chatApi now evs) as (Href & Hn & Hturns).
  split; [reflexivity|]. split; [exact Hn|]. split; [exact Href|].
  split; [|exact Hturns].
  unfold chatInitEffect. rewrite Href.
  destruct (run api chatApi now evs); reflexivity.
Qed.

(* ================================================================== *)
(** ** C5: where a chat message goes *)




(* ================================================================== *)
(** ** C3: a submission with a missing image *)

(** C3.  A submission made while one of the image slots its mode needs is
    empty leaves the world as it was, so no request is sent; the error of
    the panel becomes the validation message; and no output image is
    produced: the generator panel holds none afterwards, and the extractor
    panel holds what it held before. *)
Theorem submit_with_missing_image
  (api : list Request -> Request -> ApiReply) (sub : Submission)
  (slot : ImageSlot) (s : AppState) (w : World) :
  In slot (requiredSlots sub s) ->
  file (getImage slot s) = None ->
  let s' := fst (submit api sub s w) in
  snd (submit api sub s w) = w /\
  panelError sub s' = Some (validationMessage sub s) /\
  match sub with
  | SubmitGenerator => panelOutput sub s' = None
  | SubmitExtractor => panelOutput sub s' = panelOutput sub s
  end.
Proof.
  intros Hin Hfile. cbv zeta.
  destruct sub; cbn [submit panelError panelOutput validationMessage].
  - unfold handleGeneratorSubmit, generatorCall.
    cbn [requiredSlots] in Hin.
    destruct (generationMode s); cbn [In] in Hin;
      repeat (destruct Hin as [<-|Hin]); try contradiction;
      cbn [getImage] in Hfile; rewrite Hfile;
      repeat match goal with
             | |- context [match file ?i with _ => _ end] =>
                 destruct (file i)
             end;
      repeat split.
  - unfold handleProcessImage.
    cbn [requiredSlots In] in Hin. destruct Hin as [<-|[]].
    cbn [getImage] in Hfile. rewrite Hfile. repeat split.
Qed.

Lemma submit_with_missing_image_witness :
  let api := answering (responseOf [imagePart pngA]) in
  let s :=
    setRenderShot {| file := Some roomPhoto; previewUrl := Some "blob:0" |}
      (setGenerationMode PatternOnly initialState) in
  submit api SubmitGenerator s (initialWorld 0)
  = (setError
       (Some "Please upload a Render Shot and a Pattern Image for this mode.")
       s,
     initialWorld 0) /\
  snd (submit api SubmitExtractor s (initialWorld 0)) = initialWorld 0.
Proof.
  cbv zeta. split.
  - pose proof (submit_with_missing_image
                  (answering (responseOf [imagePart pngA])) SubmitGenerator
                  PatternSlot
                  (setRenderShot
                     {| file := Some roomPhoto; previewUrl := Some "blob:0" |}
                     (setGenerationMode PatternOnly initialState))
                  (initialWorld 0)
                  (or_intror (or_introl eq_refl)) eq_refl) as (Hw & _ & _).
    vm_compute. reflexivity.
  - exact (proj1 (submit_with_missing_image
                    (answering (responseOf [imagePart pngA])) SubmitExtractor
                    SourceImageSlot
                    (setRenderShot
                       {| file := Some roomPhoto; previewUrl := Some "blob:0" |}
                       (setGenerationMode PatternOnly initialState))
                    (initialWorld 0)
                    (or_introl eq_refl) eq_refl)).
Defined.

(* ================================================================== *)
(** ** C4: switching the tab or the mode *)

(** A switch of the tab empties the panel that is left; a switch of the
    mode empties the generator panel. *)
Lemma clickTab_empties_panel (t : ActiveTab) (s : AppState) :
  t <> activeTab s ->
  match t with
  | generator => extractorPanelEmpty (clickTab t s)
  | extractor => generatorPanelEmpty (clickTab t s)
  end.
Proof.
  intros H. unfold clickTab.
  destruct t, (activeTab s) eqn:E; try congruence; cbn [ActiveTab_eqb];
    repeat split.
Qed.

Lemma clickMode_empties_panel (m : GenerationMode) (s : AppState) :
  m <> generationMode s -> generatorPanelEmpty (clickMode m s).
Proof.
  intros H. unfold clickMode.
  destruct m, (generationMode s) eqn:E; try congruence;
    cbn [GenerationMode_eqb]; repeat split.
Qed.

(** Neither switch touches the world: no object URL is revoked. *)
Lemma switch_leaves_world
  (api : list Request -> Request -> ApiReply)
  (chatApi : list (Chat * string) -> Chat -> string -> ChatReply)
  (s : AppState) (w : World) (t : ActiveTab) (m : GenerationMode) :
  snd (step api chatApi (s, w) (ClickTab t)) = w /\
  snd (step api chatApi (s, w) (ClickMode m)) = w.
Proof. split; reflexivity. Qed.

(** C4.  Claim: a switch of the tab or of the mode empties the panel and
    releases every preview locator that was populated.  After a render
    shot has been selected, its preview locator is ["blob:0"].  A switch
    to the extractor tab, or to another mode, empties the slot, but
    ["blob:0"] is not revoked: the list of revoked URLs stays empty.
    Removing the image instead does revoke it. *)
Theorem switch_does_not_revoke_preview :
  let api := answering (responseOf [imagePart pngA]) in
  let chatApi := replying "Certainly." in
  let before := run api chatApi 0 [SelectImage RenderShotSlot roomPhoto] in
  let afterTab := step api chatApi before (ClickTab extractor) in
  let afterMode := step api chatApi before (ClickMode PatternOnly) in
  let afterRemove := step api chatApi before (RemoveImage RenderShotSlot) in
  previewUrl (renderShot (fst before)) = Some "blob:0" /\
  revoked (snd before) = [] /\
  renderShot (fst afterTab) = emptyImage /\
  revoked (snd afterTab) = [] /\
  renderShot (fst afterMode) = emptyImage /\
  revoked (snd afterMode) = [] /\
  revoked (snd afterRemove) = ["blob:0"].
Proof. cbv zeta. repeat split; vm_compute; reflexivity. Qed.

(* ================================================================== *)
(** ** C7 and C9: selecting and removing an image *)

(** C7.  Removing an uploaded image empties its slot, clears the output
    image and the error of its panel (and of the other panel), and revokes
    the preview locator the slot held. *)
Theorem handleImageRemove_clears_and_revokes
  (slot : ImageSlot) (s : AppState) (w : World) (u : string) :
  previewUrl (getImage slot s) = Some u ->
  Js.truthyString u = true ->
  let s' := fst (handleImageRemove slot s w) in
  let w' := snd (handleImageRemove slot s w) in
  getImage slot s' = emptyImage /\
  outputImage s' = None /\ error s' = None /\
  processedImage s' = None /\ processingError s' = None /\
  revoked w' = (revoked w ++ [u])%list.
Proof.
  intros Hu Ht. cbv zeta. unfold handleImageRemove.
  rewrite Hu, Ht. destruct slot; repeat split.
Qed.

Lemma handleImageRemove_clears_and_revokes_witness :
  let s :=
    setError (Some "An unknown error occurred.")
      (setOutputImage (Some "data:image/png;base64,AAAA")
         (setPattern {| file := Some tilePhoto; previewUrl := Some "blob:3" |}
            initialState)) in
  pattern (fst (handleImageRemove PatternSlot s (initialWorld 0))) = emptyImage /\
  outputImage (fst (handleImageRemove PatternSlot s (initialWorld 0))) = None /\
  error (fst (handleImageRemove PatternSlot s (initialWorld 0))) = None /\
  revoked (snd (handleImageRemove PatternSlot s (initialWorld 0))) = ["blob:3"].
Proof.
  cbv zeta.
  destruct (handleImageRemove_clears_and_revokes PatternSlot
              (setError (Some "An unknown error occurred.")
                 (setOutputImage (Some "data:image/png;base64,AAAA")
                    (setPattern
                       {| file := Some tilePhoto; previewUrl := Some "blob:3" |}
                       initialState)))
              (initialWorld 0) "blob:3" eq_refl eq_refl)
    as (H1 & H2 & H3 & _ & _ & H6).
  repeat split; assumption.
Defined.

(** C9.  Selecting an image, and removing one, in any slot of either
    panel clears the output image and the error of the generator panel and
    those of the extractor panel. *)
Theorem select_or_remove_clears_both_panels
  (slot : ImageSlot) (f : File) (s : AppState) (w : World) :
  let selected := fst (handleImageSelect f slot s w) in
  let removed := fst (handleImageRemove slot s w) in
  (outputImage selected = None /\ error selected = None /\
   processedImage selected = None /\ processingError selected = None) /\
  (outputImage removed = None /\ error removed = None /\
   processedImage removed = None /\ processingError removed = None).
Proof.
  cbv zeta. unfold handleImageSelect, handleImageRemove.
  destruct slot; cbn [getImage];
    (destruct (previewUrl _) as [u|]; [destruct (Js.truthyString u)|]);
    repeat split.
Qed.

(** The instance the claim names: removing the source image of the
    extractor resets the output image and the error of the generator. *)
Example remove_source_image_clears_generator :
  let s :=
    setError (Some "An unknown error occurred.")
      (setOutputImage (Some "data:image/png;base64,AAAA")
         (setSourceImage
            {| file := Some roomPhoto; previewUrl := Some "blob:0" |}
            initialState)) in
  outputImage (fst (handleImageRemove SourceImageSlot s (initialWorld 0))) = None /\
  error (fst (handleImageRemove SourceImageSlot s (initialWorld 0))) = None.
Proof. cbv zeta. split; reflexivity. Qed.

(* ================================================================== *)
(** ** The stored output image is a data URL that parses *)

Lemma firstImage_In (ps : list Part) (b : Blob) :
  firstImage ps = Some b -> In b (imageBlobs ps).
Proof.
  unfold firstImage. destruct (imageBlobs ps); [discriminate|].
  intros H. injection H as ->. left. reflexivity.
Qed.

Lemma lastImage_In (ps : list Part) (b : Blob) :
  lastImage ps = Some b -> In b (imageBlobs ps).
Proof.
  unfold lastImage. intros H. apply in_rev.
  destruct (rev (imageBlobs ps)); [discriminate|].
  injection H as ->. left. reflexivity.
Qed.

Lemma editUnpack_returns (response : GenerateContentResponse)
  (result : EditResult) :
  editUnpack response = inr result ->
  exists b,
    In b (imageBlobs (responseParts response)) /\
    edit_imageUrl result = Some (dataUrl b).
Proof.
  unfold editUnpack, editParts, responseParts, surfaceParts.
  destruct (candidates response) as [[|first l]|]; try discriminate.
  destruct (content first) as [c|]; [|discriminate].
  destruct (parts c) as [ps|]; [|discriminate].
  rewrite editLoop_acc. cbn [fst snd].
  destruct (lastImage ps) as [b|] eqn:E.
  - rewrite truthy_dataUrl. cbn [negb]. intros H. injection H as <-.
    exists b. split; [exact (lastImage_In _ _ E) | reflexivity].
  - cbn [Js.truthy negb].
    destruct (lastText ps) as [t|]; [destruct (Js.truthyString t)|];
      discriminate.
Qed.

Section StoredOutput.

Variable api : list Request -> Request -> ApiReply.
Variable chatApi : list (Chat * string) -> Chat -> string -> ChatReply.
Hypothesis api_ok : wellFormedApi api.

Lemma chatEditAttempt_returns (url message : string) (w w1 : World)
  (result : EditResult) :
  chatEditAttempt api url message w = (w1, inr result) ->
  exists b, cleanBlob b = true /\ edit_imageUrl result = Some (dataUrl b).
Proof.
  unfold chatEditAttempt. unfold await at 1. unfold ofResult at 1.
  destruct (parseDataUrl url) as [e|parsed]; [discriminate|].
  unfold await. rewrite editImageWithPrompt_run. cbv zeta.
  destruct (outcome (api (sent w) _)) as [e|response] eqn:Ho; [discriminate|].
  destruct (editUnpack response) as [e|r] eqn:E; [discriminate|].
  destruct (editUnpack_returns _ _ E) as (b & Hin & Hurl).
  destruct (Js.truthy (edit_imageUrl r)); [|discriminate].
  unfold resolve. intros H. injection H as _ <-.
  exists b. split; [exact (api_ok _ _ _ _ Ho Hin) | exact Hurl].
Qed.

Lemma generatorCall_returns (s : AppState) (w w1 : World)
  (result : SurfaceResult) :
  generatorCall api s w = (w1, inr result) ->
  exists b, cleanBlob b = true /\ imageUrl result = Some (dataUrl b).
Proof.
  intros H.
  assert (G : exists prompt images,
             generateSurfaceDesign api prompt images w = (w1, inr result)).
  { revert H. unfold generatorCall, applyPatternAndMaterial, applyPatternOnly,
      applyMaterialOnly.
    destruct (generationMode s);
      destruct (file (renderShot s)); destruct (file (pattern s));
      destruct (file (material s)); try discriminate;
      intros H; eexists; eexists; exact H. }
  destruct G as (prompt & images & G).
  destruct (generateSurfaceDesign_returns _ _ _ _ _ _ G)
    as (req & response & b & _ & Ho & Hf & Hurl).
  exists b. split; [|exact Hurl].
  exact (api_ok _ _ _ _ Ho (firstImage_In _ _ Hf)).
Qed.

Lemma step_storedOutput (sw : AppState * World) (ev : Event) :
  storedOutput (fst sw) -> storedOutput (fst (step api chatApi sw ev)).
Proof.
  destruct sw as [s w]. cbn [fst]. intros H.
  destruct ev; cbn [step fst]; try exact H.
  - unfold chatInitEffect. destruct (chatRef s); exact H.
  - unfold clickTab. destruct (ActiveTab_eqb t (activeTab s)); [exact H|].
    unfold activeTabEffect. cbn [activeTab setActiveTab].
    destruct t; [exact H | exact I].
  - unfold clickMode. destruct (GenerationMode_eqb m (generationMode s));
      [exact H | exact I].
  - unfold handleImageSelect.
    destruct slot; cbn [getImage];
      (destruct (previewUrl _) as [u|]; [destruct (Js.truthyString u)|]);
      exact I.
  - unfold handleImageRemove.
    destruct slot; cbn [getImage];
      (destruct (previewUrl _) as [u|]; [destruct (Js.truthyString u)|]);
      exact I.
  - unfold handleGeneratorSubmit.
    destruct (generatorCall api s w) as [w1 [e|r]] eqn:E; cbn [fst].
    + destruct (instanceofError e); exact I.
    + destruct (generatorCall_returns _ _ _ _ E) as (b & Hb & Hurl).
      rewrite Hurl, truthy_dataUrl. exists b. split; [exact Hb|reflexivity].
  - unfold handleProcessImage.
    destruct (file (sourceImage s)) as [src|]; [|exact H].
    destruct (extractAndProcessImage api src _ _ w) as [w1 [e|r]]; cbn [fst].
    + destruct (instanceofError e); exact H.
    + destruct (Js.truthy (imageUrl r)); exact H.
  - unfold handleSendMessage.
    destruct (Js.truthy (outputImage s) && isGenerator (activeTab s)).
    + destruct (chatEditAttempt api _ message w) as [w1 [e|r]] eqn:E;
        cbn [fst]; [exact H|].
      destruct (chatEditAttempt_returns _ _ _ _ _ E) as (b & Hb & Hurl).
      unfold storedOutput.
      cbn [outputImage setIsBotTyping appendMessage setMessages setOutputImage].
      rewrite Hurl. exists b. split; [exact Hb|reflexivity].
    + destruct (chatRef s) as [chat|]; [|exact H].
      destruct (Chat_sendMessage chatApi chat message w) as [w1 [e|t]];
        exact H.
Qed.

Lemma run_storedOutput (now : nat) (evs : list Event) :
  storedOutput (fst (run api chatApi now evs)).
Proof.
  unfold run.
  assert (G : forall sw, storedOutput (fst sw) ->
                storedOutput (fst (fold_left (step api chatApi) evs sw))).
  { induction evs as [|ev evs IH]; intros sw H; [exact H|].
    cbn [fold_left]. apply IH. apply step_storedOutput. exact H. }
  apply G. exact I.
Qed.

(** With such an API, whenever a chat message finds an output image on
    the generator tab, the stored URL parses and the edit request is
    sent. *)
Lemma chat_edit_request_is_sent (now : nat) (evs : list Event)
  (message : string) :
  let s := fst (run api chatApi now evs) in
  let w := snd (run api chatApi now evs) in
  Js.truthy (outputImage s) && isGenerator (activeTab s) = true ->
  exists b,
    outputImage s = Some (dataUrl b) /\
    sent (snd (handleSendMessage api chatApi message s w))
    = (sent w ++ [editRequest (Some (data b)) (mimeType b) message])%list.
Proof.
  cbv zeta. intros Hc.
  pose proof (run_storedOutput now evs) as Hst.
  destruct (run api chatApi now evs) as [s w]. cbn [fst snd] in *.
  unfold storedOutput in Hst.
  destruct (outputImage s) as [url|] eqn:Ho; [|discriminate].
  destruct Hst as (b & Hb & ->). exists b. split; [reflexivity|].
  unfold handleSendMessage. rewrite Ho, Hc.
  pose proof (chatEditAttempt_world api (dataUrl b) message w) as Hw.
  rewrite (parseDataUrl_dataUrl _ Hb) in Hw. cbn [base64 parsed_mimeType] in Hw.
  destruct (chatEditAttempt api (dataUrl b) message w) as [w1 [e|r]];
    cbn [fst snd] in *; subst w1; reflexivity.
Qed.

End StoredOutput.


(* ================================================================== *)
(** ** The preview locators of the slots *)

Section Previews.

Variable api : list Request -> Request -> ApiReply.
Variable chatApi : list (Chat * string) -> Chat -> string -> ChatReply.

Lemma URL_createObjectURL_truthy (f : File) (w : World) :
  Js.truthyString (snd (URL_createObjectURL f w)) = true.
Proof. reflexivity. Qed.

Ltac same_previews H :=
  let slot := fresh "slot" in
  let u := fresh "u" in
  intros slot u; destruct slot; cbn [getImage]; first
    [ exact (H RenderShotSlot u) | exact (H PatternSlot u)
    | exact (H MaterialSlot u) | exact (H SourceImageSlot u)
    | discriminate
    | intros E; injection E as <-; reflexivity ].

Lemma step_previewsTruthy (sw : AppState * World) (ev : Event) :
  previewsTruthy (fst sw) -> previewsTruthy (fst (step api chatApi sw ev)).
Proof.
  destruct sw as [s w]. cbn [fst]. intros H.
  destruct ev; cbn [step fst]; try (same_previews H).
  - unfold chatInitEffect. destruct (chatRef s); same_previews H.
  - unfold clickTab. destruct (ActiveTab_eqb t (activeTab s));
      [same_previews H|].
    unfold activeTabEffect. cbn [activeTab setActiveTab].
    destruct t; same_previews H.
  - unfold clickMode. destruct (GenerationMode_eqb m (generationMode s));
      same_previews H.
  - unfold handleImageSelect.
    destruct slot; cbn [getImage];
      (destruct (previewUrl _) as [u0|]; [destruct (Js.truthyString u0)|]);
      same_previews H.
  - unfold handleImageRemove.
    destruct slot; cbn [getImage];
      (destruct (previewUrl _) as [u0|]; [destruct (Js.truthyString u0)|]);
      same_previews H.
  - unfold handleGeneratorSubmit.
    destruct (generatorCall api s w) as [w1 [e|r]]; cbn [fst].
    + destruct (instanceofError e); same_previews H.
    + destruct (Js.truthy (imageUrl r)); same_previews H.
  - unfold handleProcessImage.
    destruct (file (sourceImage s)) as [src|]; [|same_previews H].
    destruct (extractAndProcessImage api src _ _ w) as [w1 [e|r]]; cbn [fst].
    + destruct (instanceofError e); same_previews H.
    + destruct (Js.truthy (imageUrl r)); same_previews H.
  - unfold handleSendMessage.
    destruct (Js.truthy (outputImage s) && isGenerator (activeTab s)).
    + destruct (chatEditAttempt api _ message w) as [w1 [e|r]];
        cbn [fst]; same_previews H.
    + destruct (chatRef s) as [chat|]; [|same_previews H].
      destruct (Chat_sendMessage chatApi chat message w) as [w1 [e|t]];
        same_previews H.
Qed.

Lemma run_previewsTruthy (now : nat) (evs : list Event) :
  previewsTruthy (fst (run api chatApi now evs)).
Proof.
  unfold run.
  assert (G : forall sw, previewsTruthy (fst sw) ->
                previewsTruthy (fst (fold_left (step api chatApi) evs sw))).
  { induction evs as [|ev evs IH]; intros sw H; [exact H|].
    cbn [fold_left]. apply IH. apply step_previewsTruthy. exact H. }
  apply G. intros slot u. destruct slot; discriminate.
Qed.

(** In every state the application reaches, removing the image of a slot
    that shows a preview revokes that preview locator. *)
Lemma reachable_remove_revokes (now : nat) (evs : list Event)
  (slot : ImageSlot) (u : string) :
  let s := fst (run api chatApi now evs) in
  let w := snd (run api chatApi now evs) in
  previewUrl (getImage slot s) = Some u ->
  revoked (snd (handleImageRemove slot s w)) = (revoked w ++ [u])%list.
Proof.
  cbv zeta. intros Hu.
  pose proof (run_previewsTruthy now evs slot u Hu) as Ht.
  unfold handleImageRemove. rewrite Hu, Ht. reflexivity.
Qed.

End Previews.

(* ================================================================== *)
(** * Further properties of the sources *)

(* ================================================================== *)
(** ** [parseDataUrl] and [fileToBase64] *)

Lemma split_allChars (p : ascii -> bool) (sep : ascii) (s : string) :
  allChars p s = true ->
  Forall (fun seg => allChars p seg = true) (Js.split sep s).
Proof.
  induction s as [|c s IH]; cbn [Js.split allChars]; intros H.
  - repeat constructor.
  - apply andb_true_iff in H. destruct H as [Hc Hs]. specialize (IH Hs).
    destruct (Ascii.eqb c sep).
    + constructor; [reflexivity | exact IH].
    + destruct (Js.split sep s) as [|seg segs].
      * repeat constructor. cbn. rewrite Hc. reflexivity.
      * inversion IH as [|? ? Hseg Hsegs]; subst.
        constructor; [|exact Hsegs]. cbn. rewrite Hc, Hseg. reflexivity.
Qed.

Lemma split_first_allChars (p : ascii -> bool) (sep : ascii) (s : string) :
  allChars p s = true -> allChars p (nth 0 (Js.split sep s) "") = true.
Proof.
  intros H. pose proof (split_allChars p sep s H) as F.
  destruct (Js.split sep s) as [|seg segs]; [reflexivity|].
  inversion F; assumption.
Qed.

Lemma lazyUntilSemi_no_semicolon (s : string) :
  allChars (isNot ";") s = true -> Js.lazyUntilSemi s = None.
Proof.
  induction s as [|c s IH]; cbn [Js.lazyUntilSemi allChars]; intros H;
    [reflexivity|].
  apply andb_true_iff in H. destruct H as [Hc Hs].
  unfold isNot in Hc. apply negb_true_iff in Hc. rewrite Hc, (IH Hs).
  destruct (Js.isLineTerminator c); reflexivity.
Qed.

Lemma matchColonSemi_no_semicolon (s : string) :
  allChars (isNot ";") s = true -> Js.matchColonSemi s = None.
Proof.
  induction s as [|c s IH]; cbn [Js.matchColonSemi allChars]; intros H;
    [reflexivity|].
  apply andb_true_iff in H. destruct H as [_ Hs].
  rewrite (lazyUntilSemi_no_semicolon _ Hs), (IH Hs).
  destruct (Ascii.eqb c ":"); reflexivity.
Qed.

Lemma matchColonSemi_no_colon (s : string) :
  allChars (isNot ":") s = true -> Js.matchColonSemi s = None.
Proof.
  induction s as [|c s IH]; cbn [Js.matchColonSemi allChars]; intros H;
    [reflexivity|].
  apply andb_true_iff in H. destruct H as [Hc Hs].
  unfold isNot in Hc. apply negb_true_iff in Hc. rewrite Hc. exact (IH Hs).
Qed.

(** X1.  [parseDataUrl] inverts [dataUrl]: from the data URL that the
    operations build for an image part whose MIME type has no comma,
    semicolon or line terminator and whose payload has no comma, it gives
    back that MIME type and that payload. *)
Theorem parseDataUrl_inverts_dataUrl (b : Blob) :
  cleanBlob b = true ->
  parseDataUrl (dataUrl b)
  = inr {| parsed_mimeType := mimeType b; base64 := Some (data b) |}.
Proof. exact (parseDataUrl_dataUrl b). Qed.

Lemma parseDataUrl_inverts_dataUrl_witness :
  parseDataUrl "data:image/png;base64,AAAA"
  = inr {| parsed_mimeType := "image/png"; base64 := Some "AAAA" |}.
Proof. exact (parseDataUrl_inverts_dataUrl pngA eq_refl). Defined.

(** X2.  [parseDataUrl] throws "Invalid data URL format" on every string
    that has no colon, and on every string that has no semicolon. *)
Theorem parseDataUrl_rejects (url : string) :
  allChars (isNot ":") url = true \/ allChars (isNot ";") url = true ->
  parseDataUrl url = inl (ErrorObj "Invalid data URL format").
Proof.
  intros H. unfold parseDataUrl.
  destruct H as [H|H].
  - rewrite (matchColonSemi_no_colon _ (split_first_allChars _ "," _ H)).
    reflexivity.
  - rewrite (matchColonSemi_no_semicolon _ (split_first_allChars _ "," _ H)).
    reflexivity.
Qed.

Lemma parseDataUrl_rejects_witness :
  parseDataUrl "https://example.com/a.png"
  = inl (ErrorObj "Invalid data URL format").
Proof.
  exact (parseDataUrl_rejects "https://example.com/a.png" (or_intror eq_refl)).
Defined.

(** X4.  [fileToBase64] gives back the base64 text of a file the reader
    can read, when neither the type of the file nor that text has a
    comma; it touches nothing outside. *)
Theorem fileToBase64_payload (f : File) (b : string) (w : World) :
  file_base64 f = Some b ->
  allChars (isNot ",") (file_type f) = true ->
  cleanData b = true ->
  fileToBase64 f w = (w, inr (Some b)).
Proof.
  intros Hb Ht Hd.
  assert (H : inline_data (inlineOf f) = Some b)
    by (rewrite (inlineOf_clean f b Hb Ht Hd); reflexivity).
  unfold inlineOf in H. cbn [inline_data] in H.
  unfold fileToBase64, ofResult.
  destruct (readAsDataURL f) as [result|] eqn:E.
  - rewrite H. reflexivity.
  - discriminate.
Qed.

Lemma fileToBase64_payload_witness :
  fileToBase64 tilePhoto (initialWorld 0)
  = (initialWorld 0, inr (Some "iVBORw0KGgo=")).
Proof.
  exact (fileToBase64_payload tilePhoto "iVBORw0KGgo=" (initialWorld 0)
           eq_refl eq_refl eq_refl).
Defined.

(* ================================================================== *)
(** ** A submission, from the click to the panel *)

Section Submissions.

Variable api : list Request -> Request -> ApiReply.

(** The [switch] of [handleGeneratorSubmit] is the validation followed by
    one call of [generateSurfaceDesign]. *)
Lemma generatorCall_submission (s : AppState) :
  generatorCall api s =
  match submissionFiles SubmitGenerator s with
  | Some files =>
      generateSurfaceDesign api (submissionPrompt SubmitGenerator s) files
  | None => throw (ErrorObj (validationMessage SubmitGenerator s))
  end.
Proof.
  unfold generatorCall, submissionFiles, submissionPrompt, validationMessage,
    applyPatternAndMaterial, applyPatternOnly, applyMaterialOnly.
  cbn [requiredSlots].
  destruct (generationMode s); cbn [map getImage allSome];
    destruct (file (renderShot s)); try reflexivity;
    try destruct (file (pattern s)); try reflexivity;
    try destruct (file (material s)); reflexivity.
Qed.

Lemma extractor_submission (s : AppState) (files : list File) :
  submissionFiles SubmitExtractor s = Some files ->
  exists f, file (sourceImage s) = Some f /\ files = [f].
Proof.
  unfold submissionFiles. cbn [requiredSlots map getImage allSome].
  destruct (file (sourceImage s)) as [f|]; [|discriminate].
  intros H. injection H as <-. exists f. split; reflexivity.
Qed.

(** X5.  When every slot the submission needs holds a file and the
    request is sent, the handler sends that one request (the files in the
    order of the slots, then the prompt), ends with its busy flag off, and
    the panel shows: the message of the error the API rejected with (or the
    fixed text when the rejection is no [Error]); or the data URL of the
    first image part of the response and no error; or, when the response
    has no image part, the fixed no-image message. *)
Theorem submit_end_to_end (sub : Submission) (s : AppState) (w : World)
  (files : list File) :
  submissionFiles sub s = Some files ->
  forallb readable files = true ->
  let req := surfaceRequest (submissionPrompt sub s) (map inlineOf files) in
  let s' := fst (submit api sub s w) in
  snd (submit api sub s w) = afterRequest api req w /\
  panelBusy sub s' = false /\
  match outcome (api (sent w) req) with
  | inl e =>
      panelError sub s' = Some (shownMessage (unknownErrorMessage sub) e) /\
      panelOutput sub s' = None
  | inr response =>
      match firstImage (responseParts response) with
      | Some b =>
          panelOutput sub s' = Some (dataUrl b) /\ panelError sub s' = None
      | None =>
          panelError sub s' = Some surfaceNoImage /\ panelOutput sub s' = None
      end
  end.
Proof.
  intros Hf Hr. cbv zeta. destruct sub; cbn [submit].
  - unfold handleGeneratorSubmit.
    rewrite generatorCall_submission, Hf, generateSurfaceDesign_run, Hr.
    cbv zeta.
    destruct (outcome (api (sent w) _)) as [e|response].
    + unfold shownMessage. destruct (instanceofError e); repeat split.
    + rewrite surfaceUnpack_first.
      destruct (firstImage (responseParts response)) as [b|]; repeat split.
  - destruct (extractor_submission _ _ Hf) as (f & Hfile & ->).
    unfold handleProcessImage, extractAndProcessImage. rewrite Hfile.
    rewrite generateSurfaceDesign_run, Hr. cbv zeta.
    destruct (outcome (api (sent w) _)) as [e|response].
    + unfold shownMessage. destruct (instanceofError e); repeat split.
    + rewrite surfaceUnpack_first.
      destruct (firstImage (responseParts response)) as [b|]; repeat split.
Qed.

(** X6.  When every slot the submission needs holds a file but the reader
    fails on one of them, no request is sent and the panel shows the
    fixed text for an unknown error, as the reader rejects with an event
    and not with an [Error]. *)
Theorem submit_unreadable_file (sub : Submission) (s : AppState) (w : World)
  (files : list File) :
  submissionFiles sub s = Some files ->
  forallb readable files = false ->
  let s' := fst (submit api sub s w) in
  snd (submit api sub s w) = w /\
  panelBusy sub s' = false /\
  panelError sub s' = Some (unknownErrorMessage sub) /\
  panelOutput sub s' = None.
Proof.
  intros Hf Hr. cbv zeta. destruct sub; cbn [submit].
  - unfold handleGeneratorSubmit.
    rewrite generatorCall_submission, Hf, generateSurfaceDesign_run, Hr.
    repeat split.
  - destruct (extractor_submission _ _ Hf) as (f & Hfile & ->).
    unfold handleProcessImage, extractAndProcessImage. rewrite Hfile.
    rewrite generateSurfaceDesign_run, Hr. repeat split.
Qed.

(** X7.  Each submit button is enabled exactly when its panel is not busy
    and every slot the submission needs holds a file, that is, exactly
    when the validation of the handler will pass. *)
Theorem button_enabled_iff_submission_valid (s : AppState) :
  (getIsGeneratorButtonDisabled s = false <->
   loading s = false /\
   exists files, submissionFiles SubmitGenerator s = Some files) /\
  (getIsExtractorButtonDisabled s = false <->
   isProcessing s = false /\
   exists files, submissionFiles SubmitExtractor s = Some files).
Proof.
  unfold getIsGeneratorButtonDisabled, getIsExtractorButtonDisabled,
    submissionFiles.
  cbn [requiredSlots].
  split.
  - destruct (loading s);
      [split; [discriminate | intros [H _]; discriminate]|].
    destruct (generationMode s); cbn [map getImage allSome];
      destruct (file (renderShot s)); destruct (file (pattern s));
      destruct (file (material s));
      (split;
       [ intros H;
         first [discriminate | split; [reflexivity | eexists; reflexivity]]
       | intros [_ [files H]]; first [discriminate | reflexivity] ]).
  - cbn [map getImage allSome].
    destruct (isProcessing s);
      [split; [discriminate | intros [H _]; discriminate]|].
    destruct (file (sourceImage s));
      (split;
       [ intros H;
         first [discriminate | split; [reflexivity | eexists; reflexivity]]
       | intros [_ [files H]]; first [discriminate | reflexivity] ]).
Qed.

End Submissions.

Lemma submit_end_to_end_witness :
  let s' :=
    fst (handleGeneratorSubmit (answering (responseOf [imagePart pngA]))
           patternOnlyReady (initialWorld 0)) in
  outputImage s' = Some "data:image/png;base64,AAAA" /\ error s' = None.
Proof.
  pose proof (submit_end_to_end (answering (responseOf [imagePart pngA]))
                SubmitGenerator patternOnlyReady (initialWorld 0)
                [roomPhoto; tilePhoto] eq_refl eq_refl) as H.
  cbv zeta in H. destruct H as (_ & _ & H).
  vm_compute in H. vm_compute. exact H.
Defined.

Lemma submit_unreadable_file_witness :
  let sw' :=
    handleGeneratorSubmit (answering (responseOf [imagePart pngA]))
      patternOnlyBroken (initialWorld 0) in
  snd sw' = initialWorld 0 /\
  error (fst sw') = Some "An unknown error occurred.".
Proof.
  destruct (submit_unreadable_file (answering (responseOf [imagePart pngA]))
              SubmitGenerator patternOnlyBroken (initialWorld 0)
              [roomPhoto; brokenPhoto] eq_refl eq_refl)
    as (Hw & _ & He & _).
  split; [exact Hw | exact He].
Defined.

(* ================================================================== *)
(** ** [editImageWithPrompt]: what it returns and what it throws *)

Lemma editUnpack_returns_last (response : GenerateContentResponse)
  (result : EditResult) :
  editUnpack response = inr result ->
  exists b,
    lastImage (responseParts response) = Some b /\
    result = {| edit_imageUrl := Some (dataUrl b);
                edit_text := lastText (responseParts response) |}.
Proof.
  intros H.
  assert (Hp : firstCandidateHasParts response = true).
  { revert H. unfold editUnpack, editParts, firstCandidateHasParts.
    destruct (candidates response) as [[|first l]|]; try reflexivity.
    destruct (content first) as [c|]; [|discriminate].
    destruct (parts c); [reflexivity | discriminate]. }
  rewrite (editUnpack_last _ Hp) in H.
  destruct (lastImage (responseParts response)) as [b|]; [|discriminate].
  injection H as <-. exists b. split; reflexivity.
Qed.

Lemma editUnpack_without_parts (response : GenerateContentResponse) :
  firstCandidateHasParts response = false ->
  exists m, editUnpack response = inl (TypeErrorObj m).
Proof.
  unfold firstCandidateHasParts, editUnpack, editParts.
  destruct (candidates response) as [[|first l]|]; try discriminate.
  destruct (content first) as [c|]; [|eexists; reflexivity].
  destruct (parts c); [discriminate | eexists; reflexivity].
Qed.

Lemma surfaceParts_without_parts (response : GenerateContentResponse) :
  firstCandidateHasParts response = false -> surfaceParts response = None.
Proof.
  unfold firstCandidateHasParts, surfaceParts.
  destruct (candidates response) as [[|first l]|]; try discriminate.
  destruct (content first) as [c|]; [|reflexivity].
  destruct (parts c); [discriminate | reflexivity].
Qed.

Section EditOperation.

Variable api : list Request -> Request -> ApiReply.

(** X9.  Whenever [editImageWithPrompt] returns without throwing, it has
    sent its one request, its [imageUrl] is not null (it is the data URL
    of the image part that comes last in the response), and its [text] is
    the last non-empty text among the parts without image data, or null
    when there is none. *)
Theorem editImageWithPrompt_returns (base64Image : option string)
  (mime prompt : string) (w w' : World) (result : EditResult) :
  editImageWithPrompt api base64Image mime prompt w = (w', inr result) ->
  let req := editRequest base64Image mime prompt in
  exists response b,
    w' = afterRequest api req w /\
    outcome (api (sent w) req) = inr response /\
    lastImage (responseParts response) = Some b /\
    edit_imageUrl result = Some (dataUrl b) /\
    edit_text result = lastText (responseParts response).
Proof.
  rewrite editImageWithPrompt_run. cbv zeta. intros H. injection H as Hw Hres.
  destruct (outcome (api (sent w) _)) as [e|response] eqn:Ho; [discriminate|].
  destruct (editUnpack_returns_last _ _ Hres) as (b & Hl & ->).
  exists response, b. repeat split; auto.
Qed.

(** X10.  [editImageWithPrompt] never throws anything but an [Error]: an
    [Error] the API rejects with is thrown on unchanged, and any other
    rejection is replaced by the fixed unknown-error [Error]. *)
Theorem editImageWithPrompt_throws_Errors (base64Image : option string)
  (mime prompt : string) (w : World) :
  let result := snd (editImageWithPrompt api base64Image mime prompt w) in
  match result with
  | inl e => instanceofError e = true
  | inr _ => True
  end /\
  match outcome (api (sent w) (editRequest base64Image mime prompt)) with
  | inl rejected =>
      result =
      inl (if instanceofError rejected then rejected
           else ErrorObj "An unknown error occurred while editing the image.")
  | inr _ => True
  end.
Proof.
  cbv zeta. rewrite editImageWithPrompt_run. cbv zeta. cbn [snd].
  destruct (outcome (api (sent w) _)) as [e|response].
  - split; [|reflexivity]. destruct (instanceofError e) eqn:E; [exact E|].
    reflexivity.
  - split; [|exact I].
    destruct (editUnpack response) as [e|r] eqn:E; [|exact I].
    exact (editUnpack_throws_Error _ _ E).
Qed.

(** X11.  On a response whose first candidate has no content, or content
    without a part list, [editImageWithPrompt] reads the parts without a
    guard and throws the [TypeError] of the runtime, while
    [generateSurfaceDesign], which guards the access, throws its fixed
    no-image message. *)
Theorem response_without_parts (response : GenerateContentResponse) :
  firstCandidateHasParts response = false ->
  (forall base64Image mime prompt w,
      outcome (api (sent w) (editRequest base64Image mime prompt))
        = inr response ->
      exists m,
        snd (editImageWithPrompt api base64Image mime prompt w)
          = inl (TypeErrorObj m)) /\
  (forall prompt images w,
      forallb readable images = true ->
      outcome (api (sent w) (surfaceRequest prompt (map inlineOf images)))
        = inr response ->
      snd (generateSurfaceDesign api prompt images w)
        = inl (ErrorObj surfaceNoImage)).
Proof.
  intros Hp. split.
  - intros base64Image mime prompt w Ho.
    rewrite editImageWithPrompt_run. cbv zeta. cbn [snd]. rewrite Ho.
    exact (editUnpack_without_parts _ Hp).
  - intros prompt images w Hr Ho.
    rewrite generateSurfaceDesign_run, Hr. cbv zeta. cbn [snd]. rewrite Ho.
    unfold surfaceUnpack. rewrite (surfaceParts_without_parts _ Hp).
    reflexivity.
Qed.

End EditOperation.

Lemma editImageWithPrompt_returns_witness :
  exists response b,
    lastImage (responseParts response) = Some b /\
    Some "data:image/png;base64,BBBB" = Some (dataUrl b) /\
    Some "Done." = lastText (responseParts response).
Proof.
  destruct (editImageWithPrompt_returns
              (answering (responseOf [imagePart pngA; textPart "Done.";
                                      imagePart pngB]))
              (Some "AAAA") "image/png" "add gold veins" (initialWorld 0) _
              {| edit_imageUrl := Some "data:image/png;base64,BBBB";
                 edit_text := Some "Done." |}
              eq_refl)
    as (response & b & _ & _ & Hl & Hu & Ht).
  exists response, b. repeat split; assumption.
Defined.

Lemma response_without_parts_witness :
  (exists m,
      snd (editImageWithPrompt (answering responseWithoutContent) (Some "AAAA")
             "image/png" "add gold veins" (initialWorld 0))
        = inl (TypeErrorObj m)) /\
  snd (generateSurfaceDesign (answering responseWithoutContent) "prompt"
         [roomPhoto] (initialWorld 0))
    = inl (ErrorObj surfaceNoImage).
Proof.
  destruct (response_without_parts (answering responseWithoutContent)
              responseWithoutContent eq_refl) as [He Hs].
  split.
  - exact (He (Some "AAAA") "image/png" "add gold veins" (initialWorld 0)
              eq_refl).
  - exact (Hs "prompt" [roomPhoto] (initialWorld 0) eq_refl eq_refl).
Defined.

(* ================================================================== *)
(** ** The chat: the reply to an edit, and the calls of an event *)

Section Chat.

Variable api : list Request -> Request -> ApiReply.
Variable chatApi : list (Chat * string) -> Chat -> string -> ChatReply.

Lemma chatEditAttempt_run (url message : string) (parsed : ParsedDataUrl)
  (w : World) :
  parseDataUrl url = inr parsed ->
  let req := editRequest (base64 parsed) (parsed_mimeType parsed) message in
  chatEditAttempt api url message w =
  (afterRequest api req w,
   match outcome (api (sent w) req) with
   | inl e =>
       inl (if instanceofError e then e
            else ErrorObj "An unknown error occurred while editing the image.")
   | inr response =>
       match editUnpack response with
       | inl e => inl e
       | inr result =>
           if Js.truthy (edit_imageUrl result) then inr result
           else inl (ErrorObj
                  "The AI did not return a new image for your edit request.")
       end
   end).
Proof.
  intros Hp. cbv zeta. unfold chatEditAttempt.
  unfold await at 1. unfold ofResult at 1. rewrite Hp.
  unfold await. rewrite editImageWithPrompt_run. cbv zeta.
  destruct (outcome (api (sent w) _)) as [e|response]; [reflexivity|].
  destruct (editUnpack response) as [e|r]; [reflexivity|].
  destruct (Js.truthy (edit_imageUrl r)); reflexivity.
Qed.

Lemma handleSendMessage_edit_halves (message : string) (s : AppState)
  (w : World) (url : string) :
  outputImage s = Some url ->
  Js.truthyString url = true ->
  activeTab s = generator ->
  handleSendMessage api chatApi message s w
  = (editReplyUpdate (clock (fst (chatEditAttempt api url message w)))
       (snd (chatEditAttempt api url message w))
       (sendMessageSync (clock w) message s),
     fst (chatEditAttempt api url message w)).
Proof.
  intros Ho Ht Htab. unfold handleSendMessage.
  rewrite Ho, Htab. cbn [Js.truthy isGenerator]. rewrite Ht. cbn [andb].
  destruct (chatEditAttempt api url message w) as [w1 [e|r]]; reflexivity.
Qed.

(** X12.  A chat message sent while the generator tab shows an output
    image whose data URL parses sends the edit request, and the handler is
    its part before the [await] followed by [editReplyUpdate].  When the
    awaited edit settles, whatever the state is by then, the typing flag
    is set off and exactly one reply of the bot is added to the transcript
    as it is then.  If the API rejected, the output image is left as it is
    and the reply is the message of the error.  If the response has an
    image part, the last one becomes the output image and the reply is the
    last text of the response, or the fixed confirmation when it has none.
    If it has a part list without an image part, the output image is left
    as it is and the reply is the no-image message of the operation.  If
    its first candidate has no part list, the output image is left as it
    is and the reply is the message of the [TypeError] of the runtime. *)
Theorem chat_edit_reply (message url : string) (parsed : ParsedDataUrl)
  (w : World) :
  parseDataUrl url = inr parsed ->
  let req := editRequest (base64 parsed) (parsed_mimeType parsed) message in
  let settled := chatEditAttempt api url message w in
  (forall s,
      outputImage s = Some url ->
      Js.truthyString url = true ->
      activeTab s = generator ->
      handleSendMessage api chatApi message s w
      = (editReplyUpdate (clock (fst settled)) (snd settled)
           (sendMessageSync (clock w) message s),
         fst settled)) /\
  fst settled = afterRequest api req w /\
  forall now cur,
    let cur' := editReplyUpdate now (snd settled) cur in
    isBotTyping cur' = false /\
    exists reply,
      messages cur' =
        (messages cur ++
         [ {| msg_id := now + 1; msg_text := reply; sender := bot |} ])%list /\
      match outcome (api (sent w) req) with
      | inl rejected =>
          outputImage cur' = outputImage cur /\
          reply =
            shownMessage "An unknown error occurred while editing the image."
              rejected
      | inr response =>
          if firstCandidateHasParts response then
            match lastImage (responseParts response) with
            | Some b =>
                outputImage cur' = Some (dataUrl b) /\
                reply =
                  match lastText (responseParts response) with
                  | Some t => t
                  | None => "Of course. Here is the updated design."
                  end
            | None =>
                outputImage cur' = outputImage cur /\
                reply =
                  match lastText (responseParts response) with
                  | Some t => editNoImageWithText t
                  | None => editNoImage
                  end
            end
          else
            outputImage cur' = outputImage cur /\
            editUnpack response = inl (TypeErrorObj reply)
      end.
Proof.
  intros Hp. cbv zeta. split; [|split].
  - intros s Ho Ht Htab. exact (handleSendMessage_edit_halves _ _ _ _ Ho Ht Htab).
  - rewrite (chatEditAttempt_run _ _ _ _ Hp). reflexivity.
  - intros now cur. rewrite (chatEditAttempt_run _ _ _ _ Hp). cbv zeta.
    cbn [snd].
    destruct (outcome (api (sent w) _)) as [rejected|response].
    + split; [reflexivity|]. eexists. split; [reflexivity|].
      split; [reflexivity|]. unfold shownMessage.
      destruct (instanceofError rejected) eqn:E; cbv beta iota;
        [rewrite E|]; reflexivity.
    + destruct (firstCandidateHasParts response) eqn:Hparts.
      * rewrite (editUnpack_last _ Hparts).
        destruct (lastImage (responseParts response)) as [b|].
        -- cbn [edit_imageUrl]. rewrite truthy_dataUrl.
           split; [reflexivity|]. eexists. split; [reflexivity|].
           split; [reflexivity|]. cbn [edit_text].
           destruct (lastText (responseParts response)) as [t|] eqn:E;
             [|reflexivity].
           cbn [Js.truthy]. rewrite (lastText_truthy _ _ E). reflexivity.
        -- split; [reflexivity|]. eexists. split; [reflexivity|].
           split; [reflexivity|].
           destruct (lastText (responseParts response)); reflexivity.
      * destruct (editUnpack_without_parts _ Hparts) as [m Hm]. rewrite Hm.
        split; [reflexivity|]. exists m. split; [reflexivity|].
        split; reflexivity.
Qed.

End Chat.

Lemma chat_edit_reply_witness :
  let api := answering (responseOf [textPart "Darker now."; imagePart pngB]) in
  let s := setOutputImage (Some "data:image/png;base64,AAAA") initialState in
  let sw' :=
    handleSendMessage api (replying "Certainly.") "make the texture darker"
      s (initialWorld 7) in
  outputImage (fst sw') = Some "data:image/png;base64,BBBB" /\
  sent (snd sw')
    = [editRequest (Some "AAAA") "image/png" "make the texture darker"] /\
  lastMessage (fst sw')
    = Some {| msg_id := 9; msg_text := "Darker now."; sender := bot |}.
Proof.
  destruct (chat_edit_reply
              (answering (responseOf [textPart "Darker now."; imagePart pngB]))
              (replying "Certainly.") "make the texture darker"
              "data:image/png;base64,AAAA"
              {| parsed_mimeType := "image/png"; base64 := Some "AAAA" |}
              (initialWorld 7) eq_refl)
    as (Hrun & Hw & _).
  cbv zeta.
  rewrite (Hrun (setOutputImage (Some "data:image/png;base64,AAAA")
                   initialState) eq_refl eq_refl eq_refl).
  cbn [fst snd]. rewrite Hw.
  split; [|split]; vm_compute; reflexivity.
Defined.

Section Events.

Variable api : list Request -> Request -> ApiReply.
Variable chatApi : list (Chat * string) -> Chat -> string -> ChatReply.

Lemma surface_world (prompt : string) (images : list File) (w : World) :
  fst (generateSurfaceDesign api prompt images w) = w \/
  exists req, fst (generateSurfaceDesign api prompt images w)
              = afterRequest api req w.
Proof.
  rewrite generateSurfaceDesign_run.
  destruct (forallb readable images); [right; eexists|left]; reflexivity.
Qed.

Lemma generatorCall_world (s : AppState) (w : World) :
  fst (generatorCall api s w) = w \/
  exists req, fst (generatorCall api s w) = afterRequest api req w.
Proof.
  rewrite generatorCall_submission.
  destruct (submissionFiles SubmitGenerator s);
    [apply surface_world | left; reflexivity].
Qed.

Ltac calls_done :=
  rewrite ?app_nil_r; split; [reflexivity | split; [reflexivity | auto]].

Ltac no_call := exists (@nil Request), (@nil (Chat * string)); calls_done.

Ltac one_request req := exists [req], (@nil (Chat * string)); calls_done.

(** X13.  One event makes at most one call to the outside: it sends at
    most one request to the generation API or at most one turn through a
    chat session, never both, and it removes nothing from either log. *)
Theorem step_calls_at_most_once (sw : AppState * World) (ev : Event) :
  let w := snd sw in
  let w' := snd (step api chatApi sw ev) in
  exists reqs turns,
    sent w' = (sent w ++ reqs)%list /\
    chatTurns w' = (chatTurns w ++ turns)%list /\
    length reqs + length turns <= 1.
Proof.
  destruct sw as [s w]. cbv zeta. cbn [snd].
  destruct ev; cbn [step snd]; try no_call.
  - unfold chatInitEffect. destruct (chatRef s); no_call.
  - unfold handleImageSelect.
    destruct (previewUrl (getImage slot s)) as [u|];
      [destruct (Js.truthyString u)|]; no_call.
  - unfold handleImageRemove.
    destruct (previewUrl (getImage slot s)) as [u|];
      [destruct (Js.truthyString u)|]; no_call.
  - unfold handleGeneratorSubmit.
    pose proof (generatorCall_world s w) as H.
    destruct (generatorCall api s w) as [w1 [e|r]]; cbn [fst snd] in *;
      (destruct H as [->|[req ->]]; [no_call | one_request req]).
  - unfold handleProcessImage.
    destruct (file (sourceImage s)) as [src|]; [|no_call].
    unfold extractAndProcessImage.
    pose proof (surface_world
                  (extractPrompt (extractionType s)
                     (dimensionsString (sourceWidth s) (sourceHeight s)
                        (sourceUnit s))) [src] w) as H.
    destruct (generateSurfaceDesign api _ [src] w) as [w1 [e|r]];
      cbn [fst snd] in *;
      (destruct H as [->|[req ->]]; [no_call | one_request req]).
  - unfold handleSendMessage.
    destruct (Js.truthy (outputImage s) && isGenerator (activeTab s)).
    + pose proof (chatEditAttempt_world api
                    (match outputImage s with Some u => u | None => "" end)
                    message w) as H.
      destruct (chatEditAttempt api _ message w) as [w1 [e|r]];
        cbn [fst snd] in *; subst w1;
        (destruct (parseDataUrl _) as [e'|parsed];
         [ no_call
         | one_request (editRequest (base64 parsed) (parsed_mimeType parsed)
                          message) ]).
    + destruct (chatRef s) as [chat|]; [|no_call].
      unfold Chat_sendMessage.
      destruct (chat_outcome (chatApi (chatTurns w) chat message));
        (exists (@nil Request), [(chat, message)]; calls_done).
Qed.

End Events.

(* ================================================================== *)
(** ** Preview locators are never used after they are revoked *)

Lemma ofNat_inj (n m : nat) : Js.ofNat n = Js.ofNat m -> n = m.
Proof.
  unfold Js.ofNat. intros H.
  apply DecimalNat.Unsigned.to_uint_inj.
  apply (f_equal NilEmpty.uint_of_string) in H.
  rewrite !NilEmpty.usu in H. injection H as H. exact H.
Qed.

Lemma objectUrl_inj (n m : nat) : objectUrl n = objectUrl m -> n = m.
Proof.
  unfold objectUrl. cbn [append]. intros H. injection H as H.
  exact (ofNat_inj _ _ H).
Qed.

Lemma ImageSlot_eqb_eq (a b : ImageSlot) :
  ImageSlot_eqb a b = true <-> a = b.
Proof. destruct a, b; cbn; split; congruence. Qed.

Lemma getImage_setImage (slot slot' : ImageSlot) (v : ImageState)
  (s : AppState) :
  getImage slot' (setImage slot v s)
  = if ImageSlot_eqb slot slot' then v else getImage slot' s.
Proof. destruct slot, slot'; reflexivity. Qed.

(** The invariant looks at the slots, at the counter of locators and at
    the revoked locators only; it survives when slots are emptied. *)
Lemma previewsLive_shrink (s s' : AppState) (w w' : World) :
  (forall slot,
      getImage slot s' = getImage slot s \/
      previewUrl (getImage slot s') = None) ->
  nextObjectUrl w' = nextObjectUrl w ->
  revoked w' = revoked w ->
  previewsLive (s, w) -> previewsLive (s', w').
Proof.
  intros Hslots Hn Hr (HA & HB & HC). unfold previewsLive. cbn [fst snd] in *.
  rewrite Hn, Hr. split; [|split].
  - intros slot u Hu.
    destruct (Hslots slot) as [E|E]; [|rewrite E in Hu; discriminate].
    rewrite E in Hu. exact (HA slot u Hu).
  - intros slot1 slot2 u Hne H1.
    destruct (Hslots slot1) as [E1|E1]; [|rewrite E1 in H1; discriminate].
    destruct (Hslots slot2) as [E2|E2]; [|rewrite E2; discriminate].
    rewrite E1 in H1. rewrite E2. exact (HB slot1 slot2 u Hne H1).
  - exact HC.
Qed.

Lemma previewsLive_same (s s' : AppState) (w w' : World) :
  (forall slot, getImage slot s' = getImage slot s) ->
  sameBrowser w w' ->
  previewsLive (s, w) -> previewsLive (s', w').
Proof.
  intros Hslots (_ & _ & Hn & Hr).
  apply previewsLive_shrink; auto.
Qed.

Lemma previewsLive_revoke (s : AppState) (w : World) (slot : ImageSlot) :
  previewsLive (s, w) ->
  let w1 :=
    match previewUrl (getImage slot s) with
    | Some u => if Js.truthyString u then URL_revokeObjectURL u w else w
    | None => w
    end in
  nextObjectUrl w1 = nextObjectUrl w /\
  (forall u, In u (revoked w1) ->
     In u (revoked w) \/ previewUrl (getImage slot s) = Some u) /\
  (forall u, In u (revoked w) -> In u (revoked w1)).
Proof.
  intros _. cbv zeta.
  destruct (previewUrl (getImage slot s)) as [u|];
    [destruct (Js.truthyString u)|]; cbn [nextObjectUrl revoked URL_revokeObjectURL];
    (split; [reflexivity|]); (split; [|intros u' Hu'; auto using in_or_app]);
    intros u' Hu'; auto.
  apply in_app_or in Hu'. destruct Hu' as [Hu'|[<-|[]]]; auto.
Qed.

Lemma handleImageRemove_previewsLive (slot : ImageSlot) (s : AppState)
  (w : World) :
  previewsLive (s, w) -> previewsLive (handleImageRemove slot s w).
Proof.
  intros H. pose proof H as (HA & HB & HC). cbn [fst snd] in *.
  destruct (previewsLive_revoke s w slot H) as (Hn & Hin & Hsub).
  cbv zeta in *. unfold handleImageRemove.
  set (w1 := match previewUrl (getImage slot s) with
             | Some u => if Js.truthyString u then URL_revokeObjectURL u w else w
             | None => w
             end) in *.
  assert (Hget : forall slot',
             getImage slot'
               (setProcessingError None
                  (setProcessedImage None
                     (setError None
                        (setOutputImage None (setImage slot emptyImage s)))))
             = if ImageSlot_eqb slot slot' then emptyImage
               else getImage slot' s).
  { intros slot'. rewrite <- getImage_setImage. destruct slot'; reflexivity. }
  unfold previewsLive. cbn [fst snd]. rewrite Hn. split; [|split].
  - intros slot' u Hu. rewrite Hget in Hu.
    destruct (ImageSlot_eqb slot slot') eqn:E; [discriminate|].
    destruct (HA slot' u Hu) as [Hk Hnot]. split; [exact Hk|].
    intros Hrev. destruct (Hin u Hrev) as [Hrev'|Hold]; [exact (Hnot Hrev')|].
    refine (HB slot slot' u _ Hold Hu).
    intros ->. rewrite (proj2 (ImageSlot_eqb_eq slot' slot') eq_refl) in E.
    discriminate.
  - intros slot1 slot2 u Hne H1. rewrite Hget in H1. rewrite Hget.
    destruct (ImageSlot_eqb slot slot1); [discriminate|].
    destruct (ImageSlot_eqb slot slot2); [discriminate|].
    exact (HB slot1 slot2 u Hne H1).
  - intros u Hrev. destruct (Hin u Hrev) as [Hrev'|Hold];
      [exact (HC u Hrev') | exact (proj1 (HA slot u Hold))].
Qed.

Lemma handleImageSelect_previewsLive (f : File) (slot : ImageSlot)
  (s : AppState) (w : World) :
  previewsLive (s, w) -> previewsLive (handleImageSelect f slot s w).
Proof.
  intros H. pose proof H as (HA & HB & HC). cbn [fst snd] in *.
  destruct (previewsLive_revoke s w slot H) as (Hn & Hin & Hsub).
  cbv zeta in *. unfold handleImageSelect.
  set (w1 := match previewUrl (getImage slot s) with
             | Some u => if Js.truthyString u then URL_revokeObjectURL u w else w
             | None => w
             end) in *.
  unfold URL_createObjectURL. fold (objectUrl (nextObjectUrl w1)).
  assert (Hget : forall slot' v,
             getImage slot'
               (setProcessingError None
                  (setProcessedImage None
                     (setError None
                        (setOutputImage None (setImage slot v s)))))
             = if ImageSlot_eqb slot slot' then v else getImage slot' s).
  { intros slot' v. rewrite <- getImage_setImage. destruct slot'; reflexivity. }
  assert (Hold : forall u, In u (revoked w1) ->
                   exists k, k < nextObjectUrl w /\ u = objectUrl k).
  { intros u Hrev. destruct (Hin u Hrev) as [Hrev'|Hu];
      [exact (HC u Hrev') | exact (proj1 (HA slot u Hu))]. }
  unfold previewsLive. cbn [fst snd nextObjectUrl revoked]. rewrite Hn.
  split; [|split].
  - intros slot' u Hu. rewrite Hget in Hu.
    destruct (ImageSlot_eqb slot slot') eqn:E.
    + cbn [previewUrl] in Hu. injection Hu as <-. split.
      * exists (nextObjectUrl w). split; [apply Nat.lt_succ_diag_r|reflexivity].
      * intros Hrev. destruct (Hold _ Hrev) as (k & Hk & Heq).
        apply objectUrl_inj in Heq. subst k. exact (Nat.lt_irrefl _ Hk).
    + destruct (HA slot' u Hu) as [(k & Hk & Heq) Hnot]. split.
      * exists k. split; [apply Nat.lt_lt_succ_r; exact Hk | exact Heq].
      * intros Hrev. destruct (Hin u Hrev) as [Hrev'|Hu'];
          [exact (Hnot Hrev')|].
        refine (HB slot slot' u _ Hu' Hu).
        intros ->. rewrite (proj2 (ImageSlot_eqb_eq slot' slot') eq_refl) in E.
        discriminate.
  - intros slot1 slot2 u Hne H1. rewrite Hget in H1. rewrite Hget.
    destruct (ImageSlot_eqb slot slot1) eqn:E1;
      destruct (ImageSlot_eqb slot slot2) eqn:E2.
    + apply ImageSlot_eqb_eq in E1, E2. congruence.
    + cbn [previewUrl] in H1. injection H1 as <-. intros H2.
      destruct (HA slot2 _ H2) as [(k & Hk & Heq) _].
      apply objectUrl_inj in Heq. subst k. exact (Nat.lt_irrefl _ Hk).
    + cbn [previewUrl]. intros H2. injection H2 as <-.
      destruct (HA slot1 _ H1) as [(k & Hk & Heq) _].
      apply objectUrl_inj in Heq. subst k. exact (Nat.lt_irrefl _ Hk).
    + exact (HB slot1 slot2 u Hne H1).
  - intros u Hrev. destruct (Hold u Hrev) as (k & Hk & Heq).
    exists k. split; [apply Nat.lt_lt_succ_r; exact Hk | exact Heq].
Qed.

Section PreviewsLive.

Variable api : list Request -> Request -> ApiReply.
Variable chatApi : list (Chat * string) -> Chat -> string -> ChatReply.

Ltac slots_kept :=
  let slot := fresh "slot" in intros slot; destruct slot; reflexivity.

Lemma step_previewsLive (sw : AppState * World) (ev : Event) :
  previewsLive sw -> previewsLive (step api chatApi sw ev).
Proof.
  destruct sw as [s w]. intros H.
  destruct ev; cbn [step];
    try (revert H; apply previewsLive_same; [slots_kept | repeat split]).
  - unfold chatInitEffect. destruct (chatRef s); [exact H|].
    revert H. apply previewsLive_shrink; try reflexivity.
    intros slot. left. destruct slot; reflexivity.
  - unfold clickTab. destruct (ActiveTab_eqb t (activeTab s)); [exact H|].
    revert H. apply previewsLive_shrink; try reflexivity.
    unfold activeTabEffect. cbn [activeTab setActiveTab].
    intros slot. destruct t, slot; auto.
  - unfold clickMode.
    destruct (GenerationMode_eqb m (generationMode s)); [exact H|].
    revert H. apply previewsLive_shrink; try reflexivity.
    intros slot. destruct slot; auto.
  - apply handleImageSelect_previewsLive. exact H.
  - apply handleImageRemove_previewsLive. exact H.
  - unfold handleGeneratorSubmit.
    pose proof (generatorCall_sameBrowser api s w) as Hw.
    destruct (generatorCall api s w) as [w1 [e|r]]; cbn [fst] in Hw.
    + destruct (instanceofError e);
        (revert H; apply previewsLive_same; [slots_kept | exact Hw]).
    + destruct (Js.truthy (imageUrl r));
        (revert H; apply previewsLive_same; [slots_kept | exact Hw]).
  - unfold handleProcessImage.
    destruct (file (sourceImage s)) as [src|];
      [|revert H; apply previewsLive_same; [slots_kept | repeat split]].
    unfold extractAndProcessImage.
    pose proof (generateSurfaceDesign_sameBrowser api
                  (extractPrompt (extractionType s)
                     (dimensionsString (sourceWidth s) (sourceHeight s)
                        (sourceUnit s))) [src] w) as Hw.
    destruct (generateSurfaceDesign api _ [src] w) as [w1 [e|r]];
      cbn [fst] in Hw.
    + destruct (instanceofError e);
        (revert H; apply previewsLive_same; [slots_kept | exact Hw]).
    + destruct (Js.truthy (imageUrl r));
        (revert H; apply previewsLive_same; [slots_kept | exact Hw]).
  - unfold handleSendMessage.
    destruct (Js.truthy (outputImage s) && isGenerator (activeTab s)).
    + pose proof (chatEditAttempt_sameBrowser api
                    (match outputImage s with Some u => u | None => "" end)
                    message w) as Hw.
      destruct (chatEditAttempt api _ message w) as [w1 [e|r]];
        cbn [fst] in Hw;
        (revert H; apply previewsLive_same; [slots_kept | exact Hw]).
    + destruct (chatRef s) as [chat|];
        [|revert H; apply previewsLive_same; [slots_kept | repeat split]].
      unfold Chat_sendMessage.
      destruct (chat_outcome (chatApi (chatTurns w) chat message));
        (revert H; apply previewsLive_shrink; try reflexivity;
         intros slot; left; destruct slot; reflexivity).
Qed.

Lemma run_previewsLive (now : nat) (evs : list Event) :
  previewsLive (run api chatApi now evs).
Proof.
  unfold run.
  assert (G : forall sw, previewsLive sw ->
                previewsLive (fold_left (step api chatApi) evs sw)).
  { induction evs as [|ev evs' IH]; intros sw H; [exact H|].
    cbn [fold_left]. apply IH. apply step_previewsLive. exact H. }
  apply G. split; [|split].
  - intros slot' u' H'. destruct slot'; discriminate.
  - intros slot1 slot2 u' _ H'. destruct slot1; discriminate.
  - intros u' [].
Qed.

(** X15.  In every state the application reaches, a preview locator that
    a slot holds was handed out by [URL.createObjectURL] and has not been
    revoked, and no two slots hold the same locator: no image is shown
    through a revoked locator, and revoking the locator of one slot never
    takes away that of another. *)
Theorem previews_never_revoked (now : nat) (evs : list Event)
  (slot : ImageSlot) (u : string) :
  let s := fst (run api chatApi now evs) in
  let w := snd (run api chatApi now evs) in
  previewUrl (getImage slot s) = Some u ->
  ~ In u (revoked w) /\
  (exists k, k < nextObjectUrl w /\ u = objectUrl k) /\
  forall other, other <> slot -> previewUrl (getImage other s) <> Some u.
Proof.
  cbv zeta. intros Hu.
  destruct (run_previewsLive now evs) as (HA & HB & _).
  destruct (HA slot u Hu) as [Hk Hnot].
  split; [exact Hnot|]. split; [exact Hk|].
  intros other Hne. exact (HB slot other u (fun E => Hne (eq_sym E)) Hu).
Qed.

End PreviewsLive.

Lemma previews_never_revoked_witness :
  let evs :=
    [ SelectImage RenderShotSlot roomPhoto;
      SelectImage RenderShotSlot tilePhoto;
      SelectImage PatternSlot tilePhoto ] in
  let sw := run (answering (responseOf [])) (replying "Hello.") 0 evs in
  previewUrl (renderShot (fst sw)) = Some "blob:1" /\
  revoked (snd sw) = ["blob:0"] /\
  ~ In "blob:1" (revoked (snd sw)).
Proof.
  cbv zeta. split; [vm_compute; reflexivity|].
  split; [vm_compute; reflexivity|].
  exact (proj1 (previews_never_revoked (answering (responseOf []))
                  (replying "Hello.") 0
                  [ SelectImage RenderShotSlot roomPhoto;
                    SelectImage RenderShotSlot tilePhoto;
                    SelectImage PatternSlot tilePhoto ]
                  RenderShotSlot "blob:1" eq_refl)).
Defined.

(* ================================================================== *)
(** ** Dimensions in the prompts *)

Lemma includes_unfold (needle hay : string) :
  Js.includes needle hay =
  String.prefix needle hay ||
  match hay with
  | EmptyString => false
  | String _ rest => Js.includes needle rest
  end.
Proof. destruct hay; reflexivity. Qed.

Lemma prefix_app_refl (needle post : string) :
  String.prefix needle (needle ++ post) = true.
Proof.
  induction needle as [|c n IH]; cbn; [destruct post; reflexivity|].
  destruct (ascii_dec c c) as [_|N]; [exact IH | congruence].
Qed.

Lemma includes_complete (needle pre post : string) :
  Js.includes needle (pre ++ needle ++ post) = true.
Proof.
  induction pre as [|c pre IH].
  - cbn [append]. rewrite includes_unfold, prefix_app_refl. reflexivity.
  - cbn [append]. rewrite includes_unfold. cbv beta iota. rewrite IH.
    apply orb_true_r.
Qed.

Lemma peel_char (c : ascii) (h n : string) :
  (exists pre post, h = pre ++ n ++ post) ->
  exists pre post, String c h = pre ++ n ++ post.
Proof.
  intros (pre & post & ->). exists (String c pre), post. reflexivity.
Qed.

Ltac find_inside :=
  repeat apply peel_char;
  exists EmptyString; eexists; cbn [append];
  rewrite ?append_assoc; reflexivity.

Lemma tileDimensionInstruction_given (d : string) :
  Js.truthyString d = true ->
  tileDimensionInstruction (Some d)
  = "The " ++ Js.dq ++ "Pattern Image" ++ Js.dq
    ++ " represents a single tile with the dimensions " ++ d
    ++ ". Use this information to accurately scale the pattern on the surface.".
Proof. intros H. unfold tileDimensionInstruction. rewrite H. reflexivity. Qed.

Lemma patternOnlyPrompt_holds (surfaceType : SurfaceType) (d : string) :
  Js.truthyString d = true ->
  exists pre post, patternOnlyPrompt surfaceType (Some d) = pre ++ d ++ post.
Proof.
  intros H. unfold patternOnlyPrompt.
  rewrite (tileDimensionInstruction_given d H).
  destruct surfaceType;
    cbn [Js.lines String.concat append Js.nl Js.dq surfaceTypeString
         Js.toLowerCase];
    find_inside.
Qed.

Lemma patternAndMaterialPrompt_holds (surfaceType : SurfaceType) (d : string) :
  Js.truthyString d = true ->
  exists pre post,
    patternAndMaterialPrompt surfaceType (Some d) = pre ++ d ++ post.
Proof.
  intros H. unfold patternAndMaterialPrompt.
  rewrite (tileDimensionInstruction_given d H).
  destruct surfaceType;
    cbn [Js.lines String.concat append Js.nl Js.dq surfaceTypeString
         Js.toLowerCase];
    find_inside.
Qed.

Lemma extractPrompt_holds (extractionType : ExtractionType) (d : string) :
  Js.truthyString d = true ->
  exists pre post, extractPrompt extractionType (Some d) = pre ++ d ++ post.
Proof.
  intros H. unfold extractPrompt, extractDimensionInstruction. rewrite H.
  destruct extractionType;
    cbn [Js.lines String.concat append Js.nl Js.dq extractionTypeString];
    find_inside.
Qed.

(** X16.  When the width and the height are both filled in, the
    dimensions given to an operation are the text "width x height unit",
    and the prompts of the extraction, of the pattern-and-material mode
    and of the pattern-only mode include that text as it is, whatever it
    holds: nothing checks that it is a number. *)
Theorem dimensions_verbatim_in_prompts (width height : string)
  (unit : TileUnit) (surfaceType : SurfaceType)
  (extractionType : ExtractionType) :
  Js.truthyString width = true ->
  Js.truthyString height = true ->
  let d := width ++ " x " ++ height ++ " " ++ tileUnitString unit in
  dimensionsString width height unit = Some d /\
  Js.includes d (extractPrompt extractionType (Some d)) = true /\
  Js.includes d (patternAndMaterialPrompt surfaceType (Some d)) = true /\
  Js.includes d (patternOnlyPrompt surfaceType (Some d)) = true.
Proof.
  intros Hw Hh. cbv zeta.
  assert (Hd : Js.truthyString
                 (width ++ " x " ++ height ++ " " ++ tileUnitString unit)
               = true).
  { destruct width; [discriminate | reflexivity]. }
  split; [unfold dimensionsString; rewrite Hw, Hh; reflexivity|].
  split; [|split].
  - destruct (extractPrompt_holds extractionType _ Hd) as (pre & post & ->).
    apply includes_complete.
  - destruct (patternAndMaterialPrompt_holds surfaceType _ Hd)
      as (pre & post & ->).
    apply includes_complete.
  - destruct (patternOnlyPrompt_holds surfaceType _ Hd) as (pre & post & ->).
    apply includes_complete.
Qed.

Lemma dimensions_verbatim_in_prompts_witness :
  dimensionsString "60" "12e1" cm = Some "60 x 12e1 cm" /\
  Js.includes "60 x 12e1 cm" (patternOnlyPrompt Walls (Some "60 x 12e1 cm"))
    = true.
Proof.
  destruct (dimensions_verbatim_in_prompts "60" "12e1" cm Walls Pattern
              eq_refl eq_refl) as (H1 & _ & _ & H4).
  split; [exact H1 | exact H4].
Defined.

(* ================================================================== *)
(** ** The chat form *)

Lemma trimStart_split (s : list N) :
  exists pre,
    s = (pre ++ JsText.trimStart s)%list /\
    forallb JsText.isWhitespace pre = true.
Proof.
  induction s as [|u s IH]; cbn [JsText.trimStart].
  - exists []. split; reflexivity.
  - destruct (JsText.isWhitespace u) eqn:E.
    + destruct IH as (pre & Hs & Hpre). exists (u :: pre). split.
      * cbn [app]. rewrite <- Hs. reflexivity.
      * cbn [forallb]. rewrite E, Hpre. reflexivity.
    + exists []. split; reflexivity.
Qed.

Lemma trimStart_first (s : list N) :
  notWhitespace (hd_error (JsText.trimStart s)) = true.
Proof.
  induction s as [|u s IH]; cbn [JsText.trimStart]; [reflexivity|].
  destruct (JsText.isWhitespace u) eqn:E; [exact IH|].
  cbn [hd_error notWhitespace]. rewrite E. reflexivity.
Qed.

Lemma trimEnd_split (s : list N) :
  exists post,
    s = (JsText.trimEnd s ++ post)%list /\
    forallb JsText.isWhitespace post = true.
Proof.
  induction s as [|u s IH]; cbn [JsText.trimEnd].
  - exists []. split; reflexivity.
  - destruct IH as (post & Hs & Hpost).
    destruct (JsText.trimEnd s) as [|a t].
    + cbn [app] in Hs. subst post.
      destruct (JsText.isWhitespace u) eqn:E.
      * exists (u :: s). split; [reflexivity|].
        cbn [forallb]. rewrite E, Hpost. reflexivity.
      * exists s. split; [reflexivity | exact Hpost].
    + exists post. split; [|exact Hpost].
      cbn [app]. rewrite Hs at 1. reflexivity.
Qed.

Lemma trimEnd_last (s : list N) :
  notWhitespace (lastUnit (JsText.trimEnd s)) = true.
Proof.
  induction s as [|u s IH]; cbn [JsText.trimEnd]; [reflexivity|].
  destruct (JsText.trimEnd s) as [|a t].
  - destruct (JsText.isWhitespace u) eqn:E; [reflexivity|].
    cbn [lastUnit notWhitespace]. rewrite E. reflexivity.
  - cbn [lastUnit] in *. destruct (lastUnit t); exact IH.
Qed.

Lemma trimEnd_first (s : list N) :
  notWhitespace (hd_error s) = true ->
  hd_error (JsText.trimEnd s) = hd_error s.
Proof.
  destruct s as [|u s]; [reflexivity|]. intros H.
  cbn [hd_error notWhitespace] in H. apply negb_true_iff in H. cbn [JsText.trimEnd].
  destruct (JsText.trimEnd s); [rewrite H|]; reflexivity.
Qed.

(** X18.  The chat form sends nothing when the input is empty or holds
    white space only, and then leaves the input as it is.  Otherwise it
    clears the input and sends the input without the white space at its
    two ends: what it sends is not empty, neither begins nor ends with
    white space, and what was taken off at either end is white space
    only. *)
Theorem Chatbot_handleSubmit_trims (input : list N) :
  match Chatbot_handleSubmit input with
  | (Some message, input') =>
      input' = [] /\
      message <> [] /\
      notWhitespace (hd_error message) = true /\
      notWhitespace (lastUnit message) = true /\
      exists pre post,
        input = (pre ++ message ++ post)%list /\
        forallb JsText.isWhitespace pre = true /\
        forallb JsText.isWhitespace post = true
  | (None, input') =>
      input' = input /\ forallb JsText.isWhitespace input = true
  end.
Proof.
  unfold Chatbot_handleSubmit, JsText.trim.
  destruct (trimStart_split input) as (pre & Hin & Hpre).
  destruct (trimEnd_split (JsText.trimStart input)) as (post & Hmid & Hpost).
  pose proof (trimStart_first input) as Hfirst.
  pose proof (trimEnd_first _ Hfirst) as Hhead.
  pose proof (trimEnd_last (JsText.trimStart input)) as Hlast.
  destruct (JsText.trimEnd (JsText.trimStart input)) as [|u m] eqn:E.
  - split; [reflexivity|].
    cbn [app] in Hmid. rewrite Hin, forallb_app, Hpre, Hmid, Hpost.
    reflexivity.
  - split; [reflexivity|]. split; [discriminate|].
    split; [rewrite Hhead; exact Hfirst|]. split; [exact Hlast|].
    exists pre, post. split; [|split; assumption].
    rewrite <- Hmid. exact Hin.
Qed.

(* ================================================================== *)
(** ** What a switch of the tab or of the mode resets *)

(** X19.  A click on the tab that is active, or on the mode that is
    selected, changes nothing.  A switch to the other tab empties the
    panel that is left (its image slots, its output, its error, its width
    and its height) and leaves the other panel, the surface type, the mode
    and the units as they were.  A switch of the mode empties the
    generator panel in the same way and leaves the extractor panel and the
    surface type as they were. *)
Theorem switch_resets_panel (t : ActiveTab) (m : GenerationMode)
  (s : AppState) :
  (let s' := clickTab t s in
   if ActiveTab_eqb t (activeTab s) then s' = s
   else
     activeTab s' = t /\
     surfaceType s' = surfaceType s /\
     generationMode s' = generationMode s /\
     tileUnit s' = tileUnit s /\ sourceUnit s' = sourceUnit s /\
     match t with
     | extractor =>
         generatorPanelEmpty s' /\ tileWidth s' = "" /\ tileHeight s' = "" /\
         sourceImage s' = sourceImage s /\
         processedImage s' = processedImage s /\
         processingError s' = processingError s /\
         sourceWidth s' = sourceWidth s /\ sourceHeight s' = sourceHeight s
     | generator =>
         extractorPanelEmpty s' /\ sourceWidth s' = "" /\ sourceHeight s' = "" /\
         renderShot s' = renderShot s /\ pattern s' = pattern s /\
         material s' = material s /\ outputImage s' = outputImage s /\
         error s' = error s /\
         tileWidth s' = tileWidth s /\ tileHeight s' = tileHeight s
     end) /\
  (let s' := clickMode m s in
   if GenerationMode_eqb m (generationMode s) then s' = s
   else
     generationMode s' = m /\
     activeTab s' = activeTab s /\
     surfaceType s' = surfaceType s /\
     generatorPanelEmpty s' /\ tileWidth s' = "" /\ tileHeight s' = "" /\
     sourceImage s' = sourceImage s /\
     processedImage s' = processedImage s /\
     processingError s' = processingError s).
Proof.
  cbv zeta. unfold clickTab, clickMode. split.
  - destruct (ActiveTab_eqb t (activeTab s)); [reflexivity|].
    unfold activeTabEffect. cbn [activeTab setActiveTab].
    destruct t; repeat split.
  - destruct (GenerationMode_eqb m (generationMode s)); [reflexivity|].
    repeat split.
Qed.

(* ================================================================== *)
(** ** A chat message when the stored URL does not parse *)

Lemma chatEditAttempt_unparsable
  (api : list Request -> Request -> ApiReply) (url message : string)
  (e : JsThrown) (w : World) :
  parseDataUrl url = inl e ->
  chatEditAttempt api url message w = (w, inl e).
Proof.
  intros Hp. unfold chatEditAttempt. unfold await at 1. unfold ofResult at 1.
  rewrite Hp. reflexivity.
Qed.

(** X20.  When the generator tab shows an output image whose URL
    [parseDataUrl] rejects, a chat message sends nothing to the outside:
    the output image stays, the typing flag ends off, and the reply of the
    bot is the message of the parser. *)
Theorem chat_edit_unparsable (api : list Request -> Request -> ApiReply)
  (chatApi : list (Chat * string) -> Chat -> string -> ChatReply)
  (message : string) (s : AppState) (w : World) (url : string)
  (e : JsThrown) :
  outputImage s = Some url ->
  Js.truthyString url = true ->
  activeTab s = generator ->
  parseDataUrl url = inl e ->
  let sw' := handleSendMessage api chatApi message s w in
  snd sw' = w /\
  outputImage (fst sw') = Some url /\
  isBotTyping (fst sw') = false /\
  lastMessage (fst sw')
    = Some {| msg_id := clock w + 1;
              msg_text := "Invalid data URL format";
              sender := bot |}.
Proof.
  intros Ho Ht Htab Hp. cbv zeta. unfold handleSendMessage.
  rewrite Ho, Htab. cbn [Js.truthy isGenerator]. rewrite Ht. cbn [andb].
  assert (He : e = ErrorObj "Invalid data URL format").
  { revert Hp. unfold parseDataUrl.
    destruct (Js.matchColonSemi _) as [mp|]; [|congruence].
    destruct (length mp <? 2)%nat; congruence. }
  subst e.
  rewrite (chatEditAttempt_unparsable api url message _ w Hp).
  split; [reflexivity|]. split; [exact Ho|]. split; [reflexivity|].
  unfold lastMessage.
  cbn [fst messages setIsBotTyping appendMessage setMessages setError].
  rewrite rev_app_distr. reflexivity.
Qed.

Lemma chat_edit_unparsable_witness :
  let s := setOutputImage (Some "https://example.com/a.png") initialState in
  let sw' :=
    handleSendMessage (answering (responseOf [imagePart pngA]))
      (replying "Certainly.") "add gold veins" s (initialWorld 7) in
  sent (snd sw') = [] /\
  outputImage (fst sw') = Some "https://example.com/a.png".
Proof.
  destruct (chat_edit_unparsable (answering (responseOf [imagePart pngA]))
              (replying "Certainly.") "add gold veins"
              (setOutputImage (Some "https://example.com/a.png") initialState)
              (initialWorld 7) "https://example.com/a.png"
              (ErrorObj "Invalid data URL format")
              eq_refl eq_refl eq_refl eq_refl)
    as (Hw & Ho & _ & _).
  cbv zeta. split; [rewrite Hw; reflexivity | exact Ho].
Defined.
